(** * Getting started with GPUs: the PyTorch notebooks

    A shallow embedding of [torch-use-gpu.ipynb] (the training notebook) and
    [torch-test-model.ipynb] (the companion notebook).  Every code cell of the
    notebooks is a sequence of calls into PyTorch; the numeric kernels of the
    framework are kept abstract (class [Torch]) and the notebook code is
    written over them in a state-and-exception monad whose state holds the
    kernel's global namespace, the heap of mutable framework objects, the
    working directory and the record of framework calls made so far. *)

From Stdlib Require Import ZArith QArith String List Lia.
From stdpp Require Import base option list strings gmap pretty.

Open Scope string_scope.
Open Scope nat_scope.
Open Scope list_scope.

(** ** Devices, exceptions, results *)

(** [torch.device]: the CPU or the accelerator with a given index. *)
Inductive device :=
| cpu
| cuda (index : nat).

Global Instance device_eq_dec : EqDecision device.
Proof. solve_decision. Defined.

(** [str(device)], what [print(device)] shows. *)
Definition device_str (d : device) : string :=
  match d with
  | cpu => "cpu"
  | cuda i => ("cuda:" ++ pretty i)%string
  end.

Definition is_cuda (d : device) : bool :=
  match d with
  | cpu => false
  | cuda _ => true
  end.

(** Python exceptions raised by the interpreter and by the framework. *)
Inductive exn :=
| NameError (name : string)
| TypeError (msg : string)
| KeyError (msg : string)
| ValueError (msg : string)
| IndexError (msg : string)
| ZeroDivisionError
| StopIteration
| FileNotFoundError (path : string)
| RuntimeError (msg : string)
| AssertionError (msg : string).

Inductive result (A : Type) :=
| Ok (a : A)
| Raise (e : exn).
Arguments Ok {A} a.
Arguments Raise {A} e.

Definition is_ok {A} (r : result A) : bool :=
  match r with
  | Ok _ => true
  | Raise _ => false
  end.

(** [reduction=] argument of [F.nll_loss]; the default is the mean. *)
Inductive reduction :=
| Mean
| Sum.

(** ** The framework's numeric interface

    Tensor contents, floating point numbers, random initialisation, automatic
    differentiation, the Adadelta update and the pickle format belong to
    PyTorch.  The notebooks only call them, so they are the operations of an
    interface; an operation that PyTorch can reject (mismatched shapes, an
    index out of range) returns a [result]. *)
Class Torch := {
  tensor : Type;
  pyfloat : Type;
  blob : Type;
  opt_state : Type;
  (* constructors *)
  IntTensor_data : list Z -> tensor;
  Linear_init : nat -> nat -> nat -> tensor * tensor;
  (* tensor methods and torch.nn.functional *)
  view_rows : Z -> tensor -> result tensor;
  view_2d : nat -> nat -> tensor -> result tensor;
  view_as_data : tensor -> tensor -> result tensor;
  squeeze_data : tensor -> tensor;
  squeeze_dim_data : nat -> tensor -> tensor;
  linear_data : tensor -> tensor -> tensor -> result tensor;
  relu_data : tensor -> tensor;
  softmax_data : nat -> tensor -> result tensor;
  nll_loss_data : reduction -> tensor -> tensor -> result tensor;
  argmax_dim_data : nat -> bool -> tensor -> result tensor;
  argmax_data : tensor -> tensor;
  eq_data : tensor -> tensor -> result tensor;
  sum_data : tensor -> tensor;
  index_data : tensor -> tensor -> result tensor;
  index_int_data : tensor -> Z -> result tensor;
  item_float : tensor -> result pyfloat;
  item_int : tensor -> result Z;
  tensor_shape : tensor -> list nat;
  add_data : tensor -> tensor -> tensor;
  zeros_like : tensor -> tensor;
  (* autograd: gradient of nll_loss(forward(x), target) in the parameters *)
  grad_nll : list tensor -> tensor -> reduction -> tensor -> list tensor;
  (* optim.Adadelta *)
  adadelta_init : opt_state;
  adadelta_step :
    Q -> opt_state -> list (tensor * option tensor) -> opt_state * list tensor;
  (* torch.save / torch.load *)
  pickle : list (string * (tensor * device)) -> blob;
  unpickle : blob -> result (list (string * (tensor * device)));
  (* Python floats *)
  float_of_Z : Z -> pyfloat;
  float_add : pyfloat -> pyfloat -> pyfloat;
  float_mul : pyfloat -> pyfloat -> pyfloat;
  float_div : pyfloat -> pyfloat -> result pyfloat;
  (* torchvision: the FashionMNIST samples after ToTensor and Normalize,
     and the default collate function of DataLoader *)
  FashionMNIST_samples : bool -> list (tensor * Z);
  collate : list (tensor * Z) -> tensor * tensor;
  randint : nat -> nat -> nat;
}.

(** ** A state-and-exception monad

    A computation reads and updates a state and either returns a value or
    raises.  An exception keeps the state reached when it was raised, as a
    Python exception keeps the mutations made before it. *)
Definition St (S A : Type) : Type := S -> result A * S.

Definition ret {S A} (a : A) : St S A := fun s => (Ok a, s).

Definition raise {S A} (e : exn) : St S A := fun s => (Raise e, s).

Definition bind {S A B} (m : St S A) (k : A -> St S B) : St S B :=
  fun s =>
    match m s with
    | (Ok a, s') => k a s'
    | (Raise e, s') => (Raise e, s')
    end.

Definition lift_result {S A} (r : result A) : St S A := fun s => (r, s).

Declare Scope py_scope.
Delimit Scope py_scope with py.
Notation "'let*' x := m 'in' k" := (bind m (fun x => k))
  (at level 10, x pattern, m at level 100, k at level 200) : py_scope.
Notation "m1 ;; m2" := (bind m1 (fun _ => m2))
  (at level 100, m2 at level 200, right associativity) : py_scope.
Open Scope py_scope.

(** [for x in xs: body(x)] *)
Fixpoint for_each {S A} (xs : list A) (body : A -> St S unit) : St S unit :=
  match xs with
  | [] => ret tt
  | x :: xs' => body x ;; for_each xs' body
  end.

(** A loop that carries local variables from one iteration to the next. *)
Fixpoint for_fold {S A B} (xs : list A) (body : B -> A -> St S B) (acc : B)
  : St S B :=
  match xs with
  | [] => ret acc
  | x :: xs' => let* acc' := body acc x in for_fold xs' body acc'
  end.

(** [enumerate(xs)] *)
Definition enumerate {A} (xs : list A) : list (nat * A) :=
  combine (seq 0 (length xs)) xs.

(** [tqdm(it)] yields the items of [it]; the progress bar is not modelled. *)
Definition tqdm {A} (it : list A) : list A := it.

(** [range(a, b)] *)
Definition range (a b : nat) : list nat := seq a (b - a).

(** ** Parsing device strings *)

Fixpoint strip_prefix (p s : string) : option string :=
  match p with
  | EmptyString => Some s
  | String c p' =>
      match s with
      | EmptyString => None
      | String c' s' =>
          if decide (c = c') then strip_prefix p' s' else None
      end
  end.

Definition digit_of (c : Ascii.ascii) : option nat :=
  let n := Ascii.nat_of_ascii c in
  if (48 <=? n) && (n <=? 57) then Some (n - 48) else None.

Fixpoint parse_digits (acc : nat) (s : string) : option nat :=
  match s with
  | EmptyString => Some acc
  | String c s' =>
      match digit_of c with
      | Some d => parse_digits (10 * acc + d) s'
      | None => None
      end
  end.

(** [torch.device(s)] for the strings ["cpu"] and ["cuda:<index>"]. *)
Definition parse_device (s : string) : option device :=
  if decide (s = "cpu") then Some cpu
  else
    match strip_prefix "cuda:" s with
    | Some EmptyString => None
    | Some ds => cuda <$> parse_digits 0 ds
    | None => None
    end.

Section Notebooks.
Context {T : Torch}.

(** ** Tensors, modules, optimizers *)

(** What autograd remembers about a tensor computed with gradients enabled:
    that it is the output of module [m] (with the parameter values and the
    input of that call), or a loss computed from such an output. *)
Inductive tape :=
| ThroughModule (m : nat) (params : list tensor) (x : tensor)
| ThroughLoss (red : reduction) (target : tensor) (inner : tape).

(** A tensor: its contents, the device it lives on, and its [grad_fn]. *)
Record Tensor := mkTensor {
  data : tensor;
  dev : device;
  grad_fn : option tape;
}.

(** [nn.Parameter] *)
Record Param := mkParam {
  value : tensor;
  grad : option tensor;
  pdev : device;
}.

(** [nn.Linear(in_features, out_features)] *)
Record Linear := mkLinear {
  in_features : nat;
  out_features : nat;
  weight : Param;
  bias : Param;
}.

(** [class SimpleNet(nn.Module)]: the attributes set by [__init__], and the
    [training] flag every [nn.Module] has. *)
Record SimpleNet := mkSimpleNet {
  fc1 : Linear;
  fc2 : Linear;
  training : bool;
}.

(** [optim.Adadelta(params, lr)]: it keeps references to the parameters of
    the module [target], not copies. *)
Record Adadelta := mkAdadelta {
  target : nat;
  lr : Q;
  ostate : opt_state;
}.

(** Mutable objects of the kernel, reached through references. *)
Inductive object :=
| OModule (m : SimpleNet)
| OOptimizer (o : Adadelta)
| OIterator (rest : list (Tensor * Tensor)).

(** The functions the notebooks define with [def]. *)
Inductive fn_name :=
| fn_train
| fn_test_first
| fn_test
| fn_get_probs.

(** Values bound to Python names. *)
Inductive pyval :=
| VNone
| VBool (b : bool)
| VInt (z : Z)
| VFloat (f : pyfloat)
| VStr (s : string)
| VDevice (d : device)
| VTensor (t : Tensor)
| VRef (r : nat)
| VDataset (samples : list (tensor * Z))
| VLoader (samples : list (tensor * Z)) (batch_size : nat)
| VLabels (m : gmap Z string)
| VFunction (f : fn_name)
| VClass (name : string)
| VShape (s : list nat)
| VTransform
| VFigure.

(** Entries of the working directory. *)
Inductive file :=
| Pickled (b : blob)
| FashionMNISTFiles.

(** Calls into the framework, the shell and the plotting library. *)
Inductive call :=
| Shell (cmd : string)
| Print (args : list pyval)
| PrintFormat (template : string) (args : list pyval)
| Plt (fn : string)
| CudaIsAvailable
| CudaDeviceCount
| CudaGetDeviceName (i : nat)
| TorchDevice (s : string)
| NewIntTensor
| NewCudaIntTensor (d : device)
| TensorCuda
| TensorTo (d : device)
| TensorOp (name : string)
| ModuleNew
| ModuleTo (m : nat) (d : device)
| ModuleTrain (m : nat)
| ModuleEval (m : nat)
| ModuleCall (m : nat) (mode : bool) (pdevs : list device) (x : Tensor)
| OpView (rows : nat)
| OpLinear (i o : nat)
| OpRelu
| OpSoftmax (dim : nat)
| NllLoss (red : reduction) (odev tdev : device)
| Backward
| NewOptimizer (m : nat)
| ZeroGrad (o : nat)
| Step (o : nat)
| NoGradEnter
| NoGradExit
| StateDict (m : nat)
| LoadStateDict (m : nat)
| TorchSave (path : string)
| TorchLoad (path : string)
| DatasetOpen (root : string) (train download : bool)
| NewDataLoader (batch_size : nat)
| DatasetItem (i : nat)
| LoaderIter
| IterNext (it : nat)
| Randint (high : nat).

(** ** The state of a kernel session *)
Record world := mkWorld {
  gpus : list string;            (* names of the visible accelerators *)
  online : bool;                 (* can the dataset be downloaded *)
  files : gmap string file;      (* the working directory *)
  seed : nat;                    (* state of the random number generator *)
  grad_enabled : bool;           (* torch.is_grad_enabled() *)
  heap : gmap nat object;
  globals : gmap string pyval;   (* the notebook's global namespace *)
  calls : list (bool * call);    (* calls so far, each with the grad mode *)
}.

Definition set_files (f : gmap string file) (w : world) : world :=
  mkWorld (gpus w) (online w) f (seed w) (grad_enabled w) (heap w)
          (globals w) (calls w).
Definition set_seed (n : nat) (w : world) : world :=
  mkWorld (gpus w) (online w) (files w) n (grad_enabled w) (heap w)
          (globals w) (calls w).
Definition set_grad_enabled (b : bool) (w : world) : world :=
  mkWorld (gpus w) (online w) (files w) (seed w) b (heap w)
          (globals w) (calls w).
Definition set_heap (h : gmap nat object) (w : world) : world :=
  mkWorld (gpus w) (online w) (files w) (seed w) (grad_enabled w) h
          (globals w) (calls w).
Definition set_globals (g : gmap string pyval) (w : world) : world :=
  mkWorld (gpus w) (online w) (files w) (seed w) (grad_enabled w) (heap w)
          g (calls w).
Definition set_calls (c : list (bool * call)) (w : world) : world :=
  mkWorld (gpus w) (online w) (files w) (seed w) (grad_enabled w) (heap w)
          (globals w) c.

(** A kernel that has just started on a machine. *)
Definition fresh_kernel (g : list string) (net : bool)
    (fs : gmap string file) (s : nat) : world :=
  mkWorld g net fs s true ∅ ∅ [].

Definition M (A : Type) : Type := St world A.

(** The primitive accesses to the state. *)
Definition gets {A} (f : world -> A) : M A := fun w => (Ok (f w), w).

Definition log (c : call) : M unit :=
  fun w => (Ok tt, set_calls (calls w ++ [(grad_enabled w, c)]) w).

Definition set_global (x : string) (v : pyval) : M unit :=
  fun w => (Ok tt, set_globals (<[x := v]> (globals w)) w).

Definition put_object (r : nat) (o : object) : M unit :=
  fun w => (Ok tt, set_heap (<[r := o]> (heap w)) w).

Definition put_file (path : string) (f : file) : M unit :=
  fun w => (Ok tt, set_files (<[path := f]> (files w)) w).

Definition next_seed : M unit :=
  fun w => (Ok tt, set_seed (S (seed w)) w).

(** *** Names *)

Definition get_global (x : string) : M pyval :=
  let* v := gets (fun w => globals w !! x) in
  match v with
  | Some v => ret v
  | None => raise (NameError x)
  end.

Definition as_device (v : pyval) : M device :=
  match v with
  | VDevice d => ret d
  | _ => raise (TypeError "expected a torch.device")
  end.
Definition as_tensor (v : pyval) : M Tensor :=
  match v with
  | VTensor t => ret t
  | _ => raise (TypeError "expected a Tensor")
  end.
Definition as_ref (v : pyval) : M nat :=
  match v with
  | VRef r => ret r
  | _ => raise (TypeError "expected an object")
  end.
Definition as_int (v : pyval) : M Z :=
  match v with
  | VInt z => ret z
  | _ => raise (TypeError "expected an int")
  end.
Definition as_dataset (v : pyval) : M (list (tensor * Z)) :=
  match v with
  | VDataset s => ret s
  | _ => raise (TypeError "expected a Dataset")
  end.
Definition as_loader (v : pyval) : M (list (tensor * Z) * nat) :=
  match v with
  | VLoader s n => ret (s, n)
  | _ => raise (TypeError "expected a DataLoader")
  end.
Definition as_labels (v : pyval) : M (gmap Z string) :=
  match v with
  | VLabels m => ret m
  | _ => raise (TypeError "expected a dict")
  end.

(** *** The heap *)

Definition alloc (o : object) : M nat :=
  let* r := gets (fun w => fresh (dom (heap w))) in
  put_object r o ;;
  ret r.

Definition get_module (r : nat) : M SimpleNet :=
  let* o := gets (fun w => heap w !! r) in
  match o with
  | Some (OModule m) => ret m
  | _ => raise (TypeError "expected a SimpleNet")
  end.

Definition put_module (r : nat) (m : SimpleNet) : M unit :=
  put_object r (OModule m).

Definition get_optimizer (r : nat) : M Adadelta :=
  let* o := gets (fun w => heap w !! r) in
  match o with
  | Some (OOptimizer o) => ret o
  | _ => raise (TypeError "expected an Optimizer")
  end.

Definition put_optimizer (r : nat) (o : Adadelta) : M unit :=
  put_object r (OOptimizer o).

(** ** The framework calls the notebooks make

    Each call is recorded before it runs, so a call that raises is in the
    record too. *)

Definition shell (cmd : string) : M unit := log (Shell cmd).
Definition print (args : list pyval) : M unit := log (Print args).
Definition print_format (template : string) (args : list pyval) : M unit :=
  log (PrintFormat template args).
Definition plt (fn : string) : M unit := log (Plt fn).

(** *** Devices *)

(** A device can hold data if it is the CPU or a visible accelerator. *)
Definition device_ok (w : world) (d : device) : bool :=
  match d with
  | cpu => true
  | cuda i => i <? length (gpus w)
  end.

Definition check_device (d : device) : M unit :=
  let* ok := gets (fun w => device_ok w d) in
  if ok then ret tt
  else raise (RuntimeError "CUDA device not available").

Definition torch_cuda_is_available : M bool :=
  log CudaIsAvailable ;; gets (fun w => 0 <? length (gpus w)).

Definition torch_cuda_device_count : M nat :=
  log CudaDeviceCount ;; gets (fun w => length (gpus w)).

Definition torch_cuda_get_device_name (i : nat) : M string :=
  log (CudaGetDeviceName i) ;;
  let* n := gets (fun w => gpus w !! i) in
  match n with
  | Some s => ret s
  | None => raise (RuntimeError "CUDA device not available")
  end.

Definition torch_device (s : string) : M device :=
  log (TorchDevice s) ;;
  match parse_device s with
  | Some d => ret d
  | None => raise (RuntimeError "Invalid device string")
  end.

(** *** Tensors *)

Definition torch_IntTensor (l : list Z) : M Tensor :=
  log NewIntTensor ;; ret (mkTensor (IntTensor_data l) cpu None).

Definition torch_cuda_IntTensor (l : list Z) (d : device) : M Tensor :=
  log (NewCudaIntTensor d) ;;
  let* avail := gets (fun w => 0 <? length (gpus w)) in
  if avail then
    if is_cuda d then
      check_device d ;; ret (mkTensor (IntTensor_data l) d None)
    else raise (RuntimeError "legacy constructor expects device type: cuda")
  else raise (TypeError "type torch.cuda.IntTensor not available").

Definition Tensor_to (t : Tensor) (d : device) : M Tensor :=
  log (TensorTo d) ;; check_device d ;; ret (mkTensor (data t) d (grad_fn t)).

Definition Tensor_cuda (t : Tensor) : M Tensor :=
  log TensorCuda ;; check_device (cuda 0) ;;
  ret (mkTensor (data t) (cuda 0) (grad_fn t)).

(** The [grad_fn] of the result of an operation on [t]: none when gradients
    are disabled. *)
Definition tracked (t : Tensor) : M (option tape) :=
  gets (fun w => if grad_enabled w then grad_fn t else None).

Definition Tensor_op (name : string) (f : tensor -> result tensor)
    (t : Tensor) : M Tensor :=
  log (TensorOp name) ;;
  let* d := lift_result (f (data t)) in
  let* g := tracked t in
  ret (mkTensor d (dev t) g).

Definition Tensor_op2 (name : string) (f : tensor -> tensor -> result tensor)
    (a b : Tensor) : M Tensor :=
  log (TensorOp name) ;;
  if decide (dev a = dev b) then
    let* d := lift_result (f (data a) (data b)) in
    let* g := tracked a in
    ret (mkTensor d (dev a) g)
  else raise (RuntimeError "Expected all tensors to be on the same device").

Definition Tensor_squeeze (t : Tensor) : M Tensor :=
  Tensor_op "squeeze" (fun x => Ok (squeeze_data x)) t.
Definition Tensor_squeeze_dim (t : Tensor) (dim : nat) : M Tensor :=
  Tensor_op "squeeze" (fun x => Ok (squeeze_dim_data dim x)) t.
Definition Tensor_view_2d (t : Tensor) (r c : nat) : M Tensor :=
  Tensor_op "view" (view_2d r c) t.
Definition Tensor_view_as (t other : Tensor) : M Tensor :=
  Tensor_op "view_as" (fun x => view_as_data x (data other)) t.
Definition Tensor_argmax_dim (t : Tensor) (dim : nat) (keepdim : bool)
  : M Tensor :=
  Tensor_op "argmax" (argmax_dim_data dim keepdim) t.
Definition torch_argmax (t : Tensor) : M Tensor :=
  Tensor_op "argmax" (fun x => Ok (argmax_data x)) t.
Definition Tensor_eq (a b : Tensor) : M Tensor := Tensor_op2 "eq" eq_data a b.
Definition Tensor_sum (t : Tensor) : M Tensor :=
  Tensor_op "sum" (fun x => Ok (sum_data x)) t.
Definition Tensor_getitem (t idx : Tensor) : M Tensor :=
  Tensor_op2 "getitem" index_data t idx.
Definition Tensor_getitem_int (t : Tensor) (i : Z) : M Tensor :=
  Tensor_op "getitem" (fun x => index_int_data x i) t.
Definition Tensor_item_float (t : Tensor) : M pyfloat :=
  log (TensorOp "item") ;; lift_result (item_float (data t)).
Definition Tensor_item_int (t : Tensor) : M Z :=
  log (TensorOp "item") ;; lift_result (item_int (data t)).

(** [with torch.no_grad(): body]: gradients are disabled inside the block and
    the previous mode is restored when the block is left, also by an
    exception, which the context manager lets through. *)
Definition no_grad {A} (body : M A) : M A :=
  fun w =>
    let prev := grad_enabled w in
    let '(r, w') := body (set_grad_enabled false (snd (log NoGradEnter w))) in
    (r, snd (log NoGradExit (set_grad_enabled prev w'))).

(** *** Modules *)

(** [model.parameters()], in registration order. *)
Definition parameters (m : SimpleNet) : list Param :=
  [weight (fc1 m); bias (fc1 m); weight (fc2 m); bias (fc2 m)].

Definition map_params (f : Param -> Param) (m : SimpleNet) : SimpleNet :=
  mkSimpleNet
    (mkLinear (in_features (fc1 m)) (out_features (fc1 m))
       (f (weight (fc1 m))) (f (bias (fc1 m))))
    (mkLinear (in_features (fc2 m)) (out_features (fc2 m))
       (f (weight (fc2 m))) (f (bias (fc2 m))))
    (training m).

(** Update the parameters from a list given in registration order. *)
Definition zip_params (f : Param -> tensor -> Param) (m : SimpleNet)
    (ts : list tensor) : SimpleNet :=
  let upd (p : Param) (i : nat) :=
    match ts !! i with
    | Some t => f p t
    | None => p
    end in
  mkSimpleNet
    (mkLinear (in_features (fc1 m)) (out_features (fc1 m))
       (upd (weight (fc1 m)) 0) (upd (bias (fc1 m)) 1))
    (mkLinear (in_features (fc2 m)) (out_features (fc2 m))
       (upd (weight (fc2 m)) 2) (upd (bias (fc2 m)) 3))
    (training m).

Definition set_training (b : bool) (m : SimpleNet) : SimpleNet :=
  mkSimpleNet (fc1 m) (fc2 m) b.

(** [nn.Linear(i, o)]: randomly initialised parameters on the CPU. *)
Definition nn_Linear (i o : nat) : M Linear :=
  let* s := gets seed in
  next_seed ;;
  let '(wt, b) := Linear_init i o s in
  ret (mkLinear i o (mkParam wt None cpu) (mkParam b None cpu)).

(** [SimpleNet()], that is [SimpleNet.__init__]. *)
Definition SimpleNet_init : M nat :=
  log ModuleNew ;;
  let* l1 := nn_Linear 784 784 in
  let* l2 := nn_Linear 784 10 in
  alloc (OModule (mkSimpleNet l1 l2 true)).

(** [module.to(device)] moves the parameters in place and returns the module. *)
Definition Module_to (r : nat) (d : device) : M nat :=
  log (ModuleTo r d) ;;
  let* m := get_module r in
  check_device d ;;
  put_module r (map_params (fun p => mkParam (value p) (grad p) d) m) ;;
  ret r.

Definition Module_train (r : nat) : M nat :=
  log (ModuleTrain r) ;;
  let* m := get_module r in
  put_module r (set_training true m) ;;
  ret r.

Definition Module_eval (r : nat) : M nat :=
  log (ModuleEval r) ;;
  let* m := get_module r in
  put_module r (set_training false m) ;;
  ret r.

Definition Tensor_view (x : Tensor) (rows : Z) : M Tensor :=
  log (OpView (Z.to_nat rows)) ;;
  let* y := lift_result (view_rows rows (data x)) in
  ret (mkTensor y (dev x) None).

(** Calling an [nn.Linear]: weight, bias and input must share a device. *)
Definition Linear_call (l : Linear) (x : Tensor) : M Tensor :=
  log (OpLinear (in_features l) (out_features l)) ;;
  if decide (pdev (weight l) = dev x /\ pdev (bias l) = dev x) then
    let* y := lift_result
                (linear_data (value (weight l)) (value (bias l)) (data x)) in
    ret (mkTensor y (dev x) None)
  else raise (RuntimeError "Expected all tensors to be on the same device").

Definition F_relu (x : Tensor) : M Tensor :=
  log OpRelu ;; ret (mkTensor (relu_data (data x)) (dev x) None).

Definition F_softmax (x : Tensor) (dim : nat) : M Tensor :=
  log (OpSoftmax dim) ;;
  let* y := lift_result (softmax_data dim (data x)) in
  ret (mkTensor y (dev x) None).

(** [SimpleNet.forward]; [batch_size] is the notebook's global, read when the
    method runs. *)
Definition forward (self : nat) (x : Tensor) : M Tensor :=
  let* batch_size := (let* v := get_global "batch_size" in as_int v) in
  let* x := Tensor_view x batch_size in
  let* m := get_module self in
  let* x := Linear_call (fc1 m) x in
  let* x := F_relu x in
  let* m := get_module self in
  let* x := Linear_call (fc2 m) x in
  let* output := F_softmax x 1 in
  ret output.

(** [model(x)]: [nn.Module.__call__] runs [forward]; with gradients enabled
    the output remembers the module it came from. *)
Definition Module_call (r : nat) (x : Tensor) : M Tensor :=
  let* m := get_module r in
  log (ModuleCall r (training m) (map pdev (parameters m)) x) ;;
  let* out := forward r x in
  let* g := gets grad_enabled in
  ret (mkTensor (data out) (dev out)
         (if g then Some (ThroughModule r (map value (parameters m)) (data x))
          else None)).

Definition F_nll_loss (output tgt : Tensor) (red : reduction) : M Tensor :=
  log (NllLoss red (dev output) (dev tgt)) ;;
  if decide (dev output = dev tgt) then
    let* l := lift_result (nll_loss_data red (data output) (data tgt)) in
    let* g := gets grad_enabled in
    ret (mkTensor l (dev output)
           (if g then ThroughLoss red (data tgt) <$> grad_fn output else None))
  else raise (RuntimeError "Expected all tensors to be on the same device").

Definition accumulate (p : Param) (g : tensor) : Param :=
  mkParam (value p)
    (Some (match grad p with
           | Some g0 => add_data g0 g
           | None => g
           end))
    (pdev p).

(** [loss.backward()] adds the gradient of the loss to the [grad] of each
    parameter of the module the loss was computed from. *)
Definition Tensor_backward (loss : Tensor) : M unit :=
  log Backward ;;
  match grad_fn loss with
  | Some (ThroughLoss red tgt (ThroughModule r ps x)) =>
      let* m := get_module r in
      put_module r (zip_params accumulate m (grad_nll ps x red tgt))
  | Some _ =>
      raise (RuntimeError "grad can be implicitly created only for scalar outputs")
  | None =>
      raise (RuntimeError "element 0 of tensors does not require grad")
  end.

(** *** Optimizers *)

Definition Module_parameters (r : nat) : M nat :=
  get_module r ;; ret r.

Definition optim_Adadelta (params : nat) (rate : Q) : M nat :=
  log (NewOptimizer params) ;;
  alloc (OOptimizer (mkAdadelta params rate adadelta_init)).

Definition Optimizer_zero_grad (o : nat) : M unit :=
  log (ZeroGrad o) ;;
  let* opt := get_optimizer o in
  let* m := get_module (target opt) in
  put_module (target opt)
    (map_params (fun p => mkParam (value p) (zeros_like <$> grad p) (pdev p)) m).

Definition Optimizer_step (o : nat) : M unit :=
  log (Step o) ;;
  let* opt := get_optimizer o in
  let* m := get_module (target opt) in
  let '(st, vals) :=
    adadelta_step (lr opt) (ostate opt)
      (map (fun p => (value p, grad p)) (parameters m)) in
  put_module (target opt)
    (zip_params (fun p v => mkParam v (grad p) (pdev p)) m vals) ;;
  put_optimizer o (mkAdadelta (target opt) (lr opt) st).

(** *** Saving and loading *)

Definition state_dict_of (m : SimpleNet) : list (string * (tensor * device)) :=
  [("fc1.weight", (value (weight (fc1 m)), pdev (weight (fc1 m))));
   ("fc1.bias", (value (bias (fc1 m)), pdev (bias (fc1 m))));
   ("fc2.weight", (value (weight (fc2 m)), pdev (weight (fc2 m))));
   ("fc2.bias", (value (bias (fc2 m)), pdev (bias (fc2 m))))].

Definition Module_state_dict (r : nat)
  : M (list (string * (tensor * device))) :=
  log (StateDict r) ;;
  let* m := get_module r in
  ret (state_dict_of m).

Definition state_keys : list string :=
  ["fc1.weight"; "fc1.bias"; "fc2.weight"; "fc2.bias"].

Definition sd_lookup (k : string) (sd : list (string * (tensor * device)))
  : option tensor :=
  match List.find (fun kv => bool_decide (fst kv = k)) sd with
  | Some kv => Some (fst (snd kv))
  | None => None
  end.

(** A key of the state dict fits a parameter when it is present with the
    parameter's shape. *)
Definition fits (sd : list (string * (tensor * device))) (k : string)
    (p : Param) : bool :=
  match sd_lookup k sd with
  | Some v => bool_decide (tensor_shape v = tensor_shape (value p))
  | None => false
  end.

(** [param.copy_(value)] for a key that fits; the parameter keeps its device. *)
Definition load_param (sd : list (string * (tensor * device))) (k : string)
    (p : Param) : Param :=
  match sd_lookup k sd with
  | Some v =>
      if bool_decide (tensor_shape v = tensor_shape (value p))
      then mkParam v (grad p) (pdev p) else p
  | None => p
  end.

(** [module.load_state_dict(sd)] with the default [strict=True]: the keys
    that fit are copied, then missing, unexpected or misshapen keys raise. *)
Definition Module_load_state_dict (r : nat)
    (sd : list (string * (tensor * device))) : M unit :=
  log (LoadStateDict r) ;;
  let* m := get_module r in
  put_module r
    (mkSimpleNet
       (mkLinear (in_features (fc1 m)) (out_features (fc1 m))
          (load_param sd "fc1.weight" (weight (fc1 m)))
          (load_param sd "fc1.bias" (bias (fc1 m))))
       (mkLinear (in_features (fc2 m)) (out_features (fc2 m))
          (load_param sd "fc2.weight" (weight (fc2 m)))
          (load_param sd "fc2.bias" (bias (fc2 m))))
       (training m)) ;;
  if forallb (fun kv => bool_decide (fst kv ∈ state_keys)) sd
     && fits sd "fc1.weight" (weight (fc1 m))
     && fits sd "fc1.bias" (bias (fc1 m))
     && fits sd "fc2.weight" (weight (fc2 m))
     && fits sd "fc2.bias" (bias (fc2 m))
  then ret tt
  else raise (RuntimeError "Error(s) in loading state_dict for SimpleNet").

Definition torch_save (sd : list (string * (tensor * device)))
    (path : string) : M unit :=
  log (TorchSave path) ;;
  put_file path (Pickled (pickle sd)).

(** [torch.load(path)] without [map_location]: every tensor goes back to the
    device it was saved from, which must be available. *)
Definition torch_load (path : string)
  : M (list (string * (tensor * device))) :=
  log (TorchLoad path) ;;
  let* f := gets (fun w => files w !! path) in
  match f with
  | None => raise (FileNotFoundError path)
  | Some FashionMNISTFiles => raise (RuntimeError "not a file written by torch.save")
  | Some (Pickled b) =>
      let* sd := lift_result (unpickle b) in
      let* ok := gets (fun w => forallb (fun kv => device_ok w (snd (snd kv))) sd) in
      if ok then ret sd
      else raise (RuntimeError "Attempting to deserialize object on a CUDA device")
  end.

(** *** Datasets and loaders *)

(** [datasets.FashionMNIST(root, train=, download=, transform=)]: with
    [download=True] the files are fetched into [root] when they are not
    there; without them the constructor raises. *)
Definition datasets_FashionMNIST (root : string) (train download : bool)
  : M (list (tensor * Z)) :=
  log (DatasetOpen root train download) ;;
  (if download then
     let* f := gets (fun w => files w !! root) in
     match f with
     | Some _ => ret tt
     | None =>
         let* net := gets online in
         if net then put_file root FashionMNISTFiles
         else raise (RuntimeError "Error downloading the dataset")
     end
   else ret tt) ;;
  let* f := gets (fun w => files w !! root) in
  match f with
  | Some FashionMNISTFiles => ret (FashionMNIST_samples train)
  | _ => raise (RuntimeError "Dataset not found. You can use download=True to download it")
  end.

(** [DataLoader(dataset, batch_size=, shuffle=False, num_workers=2)] *)
Definition DataLoader (ds : list (tensor * Z)) (batch_size : Z) : M pyval :=
  log (NewDataLoader (Z.to_nat batch_size)) ;;
  if (0 <? batch_size)%Z then ret (VLoader ds (Z.to_nat batch_size))
  else raise (ValueError "batch_size should be a positive integer value").

Fixpoint chunks {A} (fuel n : nat) (l : list A) : list (list A) :=
  match fuel with
  | 0 => []
  | S f =>
      match l with
      | [] => []
      | _ => take n l :: chunks f n (drop n l)
      end
  end.

(** The batches a loader yields, in order ([shuffle=False]); they are
    collated on the CPU. *)
Definition loader_batches (ds : list (tensor * Z)) (batch_size : nat)
  : list (Tensor * Tensor) :=
  map (fun c => let '(x, y) := collate c in
                (mkTensor x cpu None, mkTensor y cpu None))
      (chunks (length ds) batch_size ds).

Definition iter (ds : list (tensor * Z)) (batch_size : nat) : M nat :=
  log LoaderIter ;; alloc (OIterator (loader_batches ds batch_size)).

Definition iterator_next (it : nat) : M (Tensor * Tensor) :=
  log (IterNext it) ;;
  let* o := gets (fun w => heap w !! it) in
  match o with
  | Some (OIterator (b :: rest)) => put_object it (OIterator rest) ;; ret b
  | Some (OIterator []) => raise StopIteration
  | _ => raise (TypeError "expected an iterator")
  end.

Definition dataset_getitem (ds : list (tensor * Z)) (i : nat) : M (Tensor * Z) :=
  log (DatasetItem i) ;;
  match ds !! i with
  | Some (x, y) => ret (mkTensor x cpu None, y)
  | None => raise (IndexError "index out of range")
  end.

(** [torch.randint(high, size=(1,)).item()] *)
Definition torch_randint_item (high : nat) : M nat :=
  log (Randint high) ;;
  if decide (high = 0) then raise (RuntimeError "random_ expects from < to")
  else
    let* s := gets seed in
    next_seed ;;
    ret (randint s high mod high).

Definition dict_getitem (m : gmap Z string) (k : Z) : M string :=
  match m !! k with
  | Some s => ret s
  | None => raise (KeyError "label")
  end.

(** ** The functions defined by the notebooks *)

(** [train], torch-use-gpu.ipynb: the body of the loop. *)
Definition train_step (model : nat) (device : device) (optimizer : nat)
    (item : nat * (Tensor * Tensor)) : M unit :=
  let '(batch_idx, (data, target)) := item in
  let* data := Tensor_to data device in
  let* target := Tensor_to target device in
  Optimizer_zero_grad optimizer ;;
  let* output := Module_call model data in
  let* loss := F_nll_loss output target Mean in
  Tensor_backward loss ;;
  Optimizer_step optimizer.

Definition train (model : nat) (device : device)
    (train_loader : list (tensor * Z) * nat) (optimizer : nat) (epoch : Z)
  : M unit :=
  Module_train model ;;
  print [VDevice device] ;;
  for_each
    (tqdm (enumerate (loader_batches (fst train_loader) (snd train_loader))))
    (train_step model device optimizer).

(** The template of the summary line printed by [test]. *)
Definition test_summary : string :=
  "Test set: Average loss: {:.4f}, Accuracy: {}/{} ({:.0f}%)".

(** [test], first definition: the body of the loop, with the local
    variables [test_loss] and [correct] carried along. *)
Definition test_first_batch (model : nat) (device : device)
    (acc : pyfloat * Z) (batch : Tensor * Tensor) : M (pyfloat * Z) :=
  let '(test_loss, correct) := acc in
  let '(data, target) := batch in
  let* data := Tensor_to data device in
  let* target := Tensor_to target device in
  let* output := Module_call model data in
  let* l := (let* t := F_nll_loss output target Sum in Tensor_item_float t) in
  let test_loss := float_add test_loss l in
  let* pred := Tensor_argmax_dim output 1 true in
  let* c := (let* v := Tensor_view_as target pred in
             let* e := Tensor_eq pred v in
             let* s := Tensor_sum e in
             Tensor_item_int s) in
  let correct := (correct + c)%Z in
  ret (test_loss, correct).

Definition test_first (model : nat) (device : device)
    (test_loader : list (tensor * Z) * nat) : M unit :=
  Module_eval model ;;
  let test_loss := float_of_Z 0 in
  let correct := 0%Z in
  let* (test_loss, correct) :=
    no_grad
      (for_fold (loader_batches (fst test_loader) (snd test_loader))
         (test_first_batch model device) (test_loss, correct)) in
  let n := Z.of_nat (length (fst test_loader)) in
  let* test_loss := lift_result (float_div test_loss (float_of_Z n)) in
  let* pct := lift_result
                (float_div (float_mul (float_of_Z 100) (float_of_Z correct))
                   (float_of_Z n)) in
  print_format test_summary [VFloat test_loss; VInt correct; VInt n; VFloat pct].

(** [test], second definition (the next cell), which replaces the first. *)
Definition test_batch (model : nat) (device : device)
    (acc : pyfloat * Z) (batch : Tensor * Tensor) : M (pyfloat * Z) :=
  let '(test_loss, correct) := acc in
  let '(data, target) := batch in
  let* data := Tensor_to data device in
  let* target := Tensor_to target device in
  let* output := Module_call model data in
  let* l := (let* t := F_nll_loss output target Sum in Tensor_item_float t) in
  let test_loss := float_add test_loss l in
  let* pred := Tensor_argmax_dim output 1 true in
  let* c := (let* v := Tensor_view_as target pred in
             let* e := Tensor_eq pred v in
             let* s := Tensor_sum e in
             Tensor_item_int s) in
  let correct := (correct + c)%Z in
  ret (test_loss, correct).

Definition test (model : nat) (device : device)
    (test_loader : list (tensor * Z) * nat) : M unit :=
  Module_eval model ;;
  let test_loss := float_of_Z 0 in
  let correct := 0%Z in
  let* (test_loss, correct) :=
    no_grad
      (for_fold (loader_batches (fst test_loader) (snd test_loader))
         (test_batch model device) (test_loss, correct)) in
  let n := Z.of_nat (length (fst test_loader)) in
  let* test_loss := lift_result (float_div test_loss (float_of_Z n)) in
  let* pct := lift_result
                (float_div (float_mul (float_of_Z 100) (float_of_Z correct))
                   (float_of_Z n)) in
  print_format test_summary [VFloat test_loss; VInt correct; VInt n; VFloat pct].

(** [get_probs], torch-test-model.ipynb *)
Definition get_probs (model : nat) (x y : Tensor) (device : device)
  : M (Tensor * Tensor) :=
  let* model := Module_to model device in
  let* x := Tensor_to x device in
  let* y := Tensor_to y device in
  let* output :=
    no_grad (let* output := Module_call model x in Tensor_squeeze output) in
  let* gt := Tensor_getitem output y in
  ret (output, gt).

(** Calling whatever the names [train] and [test] are bound to. *)
Definition call_train (f : pyval) (model : nat) (device : device)
    (train_loader : list (tensor * Z) * nat) (optimizer : nat) (epoch : Z)
  : M unit :=
  match f with
  | VFunction fn_train => train model device train_loader optimizer epoch
  | _ => raise (TypeError "train is not the function of the notebook")
  end.

Definition call_test (f : pyval) (model : nat) (device : device)
    (test_loader : list (tensor * Z) * nat) : M unit :=
  match f with
  | VFunction fn_test_first => test_first model device test_loader
  | VFunction fn_test => test model device test_loader
  | _ => raise (TypeError "test is not a function of the notebook")
  end.

(** ** Reading typed globals *)

Definition global_device (x : string) : M device :=
  let* v := get_global x in as_device v.
Definition global_tensor (x : string) : M Tensor :=
  let* v := get_global x in as_tensor v.
Definition global_ref (x : string) : M nat :=
  let* v := get_global x in as_ref v.
Definition global_int (x : string) : M Z :=
  let* v := get_global x in as_int v.
Definition global_dataset (x : string) : M (list (tensor * Z)) :=
  let* v := get_global x in as_dataset v.
Definition global_loader (x : string) : M (list (tensor * Z) * nat) :=
  let* v := get_global x in as_loader v.
Definition global_labels (x : string) : M (gmap Z string) :=
  let* v := get_global x in as_labels v.

(** The file the two notebooks name. *)
Definition weights_file : string := "mnist_fashion_SimpleNet.pt".

(** [labels_map], the same dictionary in both notebooks. *)
Definition labels_map : gmap Z string :=
  list_to_map
    [(0, "T-Shirt"); (1, "Trouser"); (2, "Pullover"); (3, "Dress");
     (4, "Coat"); (5, "Sandal"); (6, "Shirt"); (7, "Sneaker"); (8, "Bag");
     (9, "Ankle Boot")]%Z.

(** ** The code cells of torch-use-gpu.ipynb, in order *)

Definition use_gpu_nvidia_smi : M unit := shell "nvidia-smi".

Definition use_gpu_imports : M unit := ret tt.

Definition use_gpu_is_available : M unit :=
  torch_cuda_is_available ;; ret tt.

Definition use_gpu_device_count : M unit :=
  torch_cuda_device_count ;; ret tt.

(** [device = torch.device("cuda:0" if torch.cuda.is_available() else "cpu")] *)
Definition use_gpu_device : M unit :=
  let* available := torch_cuda_is_available in
  let* device := torch_device (if available then "cuda:0" else "cpu") in
  set_global "device" (VDevice device) ;;
  print [VDevice device].

Definition use_gpu_device_name : M unit :=
  torch_cuda_get_device_name 0 ;; ret tt.

Definition use_gpu_X_train : M unit :=
  let* X_train := torch_IntTensor [0; 30; 50; 75; 70]%Z in
  set_global "X_train" (VTensor X_train) ;;
  print [VBool (is_cuda (dev X_train)); VStr ","; VDevice (dev X_train)].

Definition use_gpu_X_train_cuda : M unit :=
  let* X_train := global_tensor "X_train" in
  let* X_train := Tensor_cuda X_train in
  set_global "X_train" (VTensor X_train) ;;
  print [VBool (is_cuda (dev X_train)); VStr ","; VDevice (dev X_train)].

Definition use_gpu_X_test : M unit :=
  let* device := global_device "device" in
  let* X_test := torch_cuda_IntTensor [30; 40; 50]%Z device in
  set_global "X_test" (VTensor X_test) ;;
  print [VBool (is_cuda (dev X_test)); VStr ","; VDevice (dev X_test)].

Definition use_gpu_SimpleNet : M unit :=
  set_global "batch_size" (VInt 100) ;;
  set_global "SimpleNet" (VClass "SimpleNet").

(** [model = SimpleNet().to(device)] *)
Definition use_gpu_model : M unit :=
  get_global "SimpleNet" ;;
  let* net := SimpleNet_init in
  let* device := global_device "device" in
  let* model := Module_to net device in
  set_global "model" (VRef model).

Definition use_gpu_data : M unit :=
  set_global "train_transform" VTransform ;;
  set_global "test_transform" VTransform ;;
  let* trainset := datasets_FashionMNIST "./data" true true in
  set_global "trainset" (VDataset trainset) ;;
  let* batch_size := global_int "batch_size" in
  let* train_loader := DataLoader trainset batch_size in
  set_global "train_loader" train_loader ;;
  let* testset := datasets_FashionMNIST "./data" false false in
  set_global "testset" (VDataset testset) ;;
  let* batch_size := global_int "batch_size" in
  let* test_loader := DataLoader testset batch_size in
  set_global "test_loader" test_loader.

Definition use_gpu_plot_item (i : nat) : M unit :=
  set_global "i" (VInt (Z.of_nat i)) ;;
  let* trainset := global_dataset "trainset" in
  let* sample_idx := torch_randint_item (length trainset) in
  set_global "sample_idx" (VInt (Z.of_nat sample_idx)) ;;
  let* (img, label) := dataset_getitem trainset sample_idx in
  set_global "img" (VTensor img) ;;
  set_global "label" (VInt label) ;;
  plt "figure.add_subplot" ;;
  let* labels := global_labels "labels_map" in
  let* title := dict_getitem labels label in
  plt "title" ;;
  plt "axis" ;;
  let* picture := Tensor_view_2d img 28 28 in
  plt "imshow".

Definition use_gpu_plot : M unit :=
  set_global "labels_map" (VLabels labels_map) ;;
  plt "figure" ;;
  set_global "figure" VFigure ;;
  for_each (range 1 (3 * 3 + 1)) use_gpu_plot_item ;;
  plt "show".

Definition use_gpu_def_train : M unit :=
  set_global "train" (VFunction fn_train).

Definition use_gpu_def_test_first : M unit :=
  set_global "test" (VFunction fn_test_first).

Definition use_gpu_def_test : M unit :=
  set_global "test" (VFunction fn_test).

(** [EPOCHS = 5] *)
Definition EPOCHS : Z := 5.

Definition use_gpu_optimizer : M unit :=
  set_global "EPOCHS" (VInt EPOCHS) ;;
  let* model := global_ref "model" in
  let* params := Module_parameters model in
  let* optimizer := optim_Adadelta params (1 # 100)%Q in
  set_global "optimizer" (VRef optimizer).

(** The body of [for epoch in range(1, EPOCHS + 1)]. *)
Definition use_gpu_epoch (epoch : nat) : M unit :=
  set_global "epoch" (VInt (Z.of_nat epoch)) ;;
  print_format "EPOCH: {epoch}" [VInt (Z.of_nat epoch)] ;;
  let* f := get_global "train" in
  let* model := global_ref "model" in
  let* device := global_device "device" in
  let* train_loader := global_loader "train_loader" in
  let* optimizer := global_ref "optimizer" in
  call_train f model device train_loader optimizer (Z.of_nat epoch) ;;
  let* f := get_global "test" in
  let* model := global_ref "model" in
  let* device := global_device "device" in
  let* test_loader := global_loader "test_loader" in
  call_test f model device test_loader.

Definition use_gpu_epochs : M unit :=
  let* epochs := global_int "EPOCHS" in
  for_each (range 1 (Z.to_nat (epochs + 1))) use_gpu_epoch.

(** [torch.save(model.state_dict(), "mnist_fashion_SimpleNet.pt")] *)
Definition use_gpu_save : M unit :=
  let* model := global_ref "model" in
  let* sd := Module_state_dict model in
  torch_save sd weights_file.

Definition torch_use_gpu : list (M unit) :=
  [use_gpu_nvidia_smi; use_gpu_imports; use_gpu_is_available;
   use_gpu_device_count; use_gpu_device; use_gpu_device_name;
   use_gpu_X_train; use_gpu_X_train_cuda; use_gpu_X_test;
   use_gpu_SimpleNet; use_gpu_model; use_gpu_data; use_gpu_plot;
   use_gpu_def_train; use_gpu_def_test_first; use_gpu_def_test;
   use_gpu_optimizer; use_gpu_epochs; use_gpu_save].

(** ** The code cells of torch-test-model.ipynb, in order *)

Definition test_model_imports : M unit := ret tt.

Definition test_model_device : M unit :=
  let* available := torch_cuda_is_available in
  let* device := torch_device (if available then "cuda:0" else "cpu") in
  set_global "device" (VDevice device) ;;
  print [VDevice device].

Definition test_model_SimpleNet : M unit :=
  set_global "batch_size" (VInt 1) ;;
  set_global "SimpleNet" (VClass "SimpleNet").

(** [model = SimpleNet().to( device )]
    [model.load_state_dict( torch.load("mnist_fashion_SimpleNet.pt") )] *)
Definition test_model_load : M unit :=
  get_global "SimpleNet" ;;
  let* net := SimpleNet_init in
  let* device := global_device "device" in
  let* model := Module_to net device in
  set_global "model" (VRef model) ;;
  let* model := global_ref "model" in
  let* sd := torch_load weights_file in
  Module_load_state_dict model sd.

Definition test_model_eval : M unit :=
  let* model := global_ref "model" in
  Module_eval model ;; ret tt.

Definition test_model_data : M unit :=
  set_global "test_transform" VTransform ;;
  let* testset := datasets_FashionMNIST "./data" false false in
  set_global "testset" (VDataset testset) ;;
  let* batch_size := global_int "batch_size" in
  let* test_loader := DataLoader testset batch_size in
  set_global "test_loader" test_loader ;;
  let* (samples, n) := global_loader "test_loader" in
  let* testing_iterator := iter samples n in
  set_global "testing_iterator" (VRef testing_iterator) ;;
  set_global "labels_map" (VLabels labels_map).

Definition test_model_def_get_probs : M unit :=
  set_global "get_probs" (VFunction fn_get_probs).

Definition call_get_probs (f : pyval) (model : nat) (x y : Tensor)
    (device : device) : M (Tensor * Tensor) :=
  match f with
  | VFunction fn_get_probs => get_probs model x y device
  | _ => raise (TypeError "get_probs is not the function of the notebook")
  end.

Definition test_model_predict : M unit :=
  let* testing_iterator := global_ref "testing_iterator" in
  let* (image, label) := iterator_next testing_iterator in
  set_global "image" (VTensor image) ;;
  set_global "label" (VTensor label) ;;
  let* image := Tensor_squeeze_dim image 0 in
  set_global "image" (VTensor image) ;;
  print [VStr "image shape is"; VShape (tensor_shape (data image))] ;;
  let* f := get_global "get_probs" in
  let* model := global_ref "model" in
  let* device := global_device "device" in
  let* (probs, gt_prob) := call_get_probs f model image label device in
  set_global "probs" (VTensor probs) ;;
  set_global "gt_prob" (VTensor gt_prob) ;;
  let* picture := Tensor_view_2d image 28 28 in
  plt "imshow" ;;
  plt "show" ;;
  let* max_label := torch_argmax probs in
  set_global "max_label" (VTensor max_label) ;;
  let* labels := global_labels "labels_map" in
  let* k := Tensor_item_int max_label in
  let* predicted := dict_getitem labels k in
  let* k := Tensor_item_int max_label in
  let* confidence := (let* p := Tensor_getitem_int probs k in
                      Tensor_item_float p) in
  print [VStr "Model predicted:"; VStr predicted;
         VStr "with confidence % of"; VFloat confidence] ;;
  let* k := Tensor_item_int label in
  let* correct := dict_getitem labels k in
  print [VStr "Correct label is:"; VStr correct].

Definition torch_test_model : list (M unit) :=
  [test_model_imports; test_model_device; test_model_SimpleNet;
   test_model_load; test_model_eval; test_model_data;
   test_model_def_get_probs; test_model_predict].

(** [Run All]: the cells in order, stopping at the first exception. *)
Definition run_all (cells : list (M unit)) : M unit :=
  for_each cells (fun c => c).

(** ** A logic for invariants and call records

    [triple Inv L m Q]: started in a state whose globals, heap and grad mode
    satisfy [Inv], the computation [m] ends, normally or by an exception, in a state
    that satisfies [Inv]; the calls it records all satisfy [L]; and a value it
    returns satisfies [Q]. *)
Definition holds
    (Inv : gmap string pyval -> gmap nat object -> bool -> Prop) (w : world)
  : Prop :=
  Inv (globals w) (heap w) (grad_enabled w).

Definition triple {A}
    (Inv : gmap string pyval -> gmap nat object -> bool -> Prop)
    (L : bool * call -> Prop) (m : M A) (Q : A -> Prop) : Prop :=
  forall w, holds Inv w ->
    holds Inv (snd (m w)) /\
    (exists l, calls (snd (m w)) = calls w ++ l /\ Forall L l) /\
    (forall a, fst (m w) = Ok a -> Q a).

(** The calls recorded between two states. *)
Definition new_calls (w w' : world) : list (bool * call) :=
  drop (length (calls w)) (calls w').

(** ** Predicates used by the specifications *)

Definition is_TorchDevice (e : bool * call) : bool :=
  match snd e with
  | TorchDevice _ => true
  | _ => false
  end.

Definition always : gmap string pyval -> gmap nat object -> bool -> Prop :=
  fun _ _ _ => True.

Definition not_TorchDevice (e : bool * call) : Prop := is_TorchDevice e = false.

(** What a record of calls shows through a partial view [g] of its
    entries. *)
Definition observed {X} (g : bool * call -> option X)
    (l : list (bool * call)) : list X :=
  omap g l.

(** The API entry point behind a call. *)
Definition call_name (c : call) : string :=
  match c with
  | Shell _ => "shell"
  | Print _ => "print"
  | PrintFormat _ _ => "print"
  | Plt _ => "plt"
  | CudaIsAvailable => "torch.cuda.is_available"
  | CudaDeviceCount => "torch.cuda.device_count"
  | CudaGetDeviceName _ => "torch.cuda.get_device_name"
  | TorchDevice _ => "torch.device"
  | NewIntTensor => "torch.IntTensor"
  | NewCudaIntTensor _ => "torch.cuda.IntTensor"
  | TensorCuda => "Tensor.cuda"
  | TensorTo _ => "Tensor.to"
  | TensorOp name => ("Tensor." ++ name)%string
  | ModuleNew => "SimpleNet"
  | ModuleTo _ _ => "Module.to"
  | ModuleTrain _ => "Module.train"
  | ModuleEval _ => "Module.eval"
  | ModuleCall _ _ _ _ => "Module.__call__"
  | OpView _ => "Tensor.view"
  | OpLinear _ _ => "Linear.__call__"
  | OpRelu => "F.relu"
  | OpSoftmax _ => "F.softmax"
  | NllLoss _ _ _ => "F.nll_loss"
  | Backward => "Tensor.backward"
  | NewOptimizer _ => "optim.Adadelta"
  | ZeroGrad _ => "Optimizer.zero_grad"
  | Step _ => "Optimizer.step"
  | NoGradEnter => "no_grad.__enter__"
  | NoGradExit => "no_grad.__exit__"
  | StateDict _ => "Module.state_dict"
  | LoadStateDict _ => "Module.load_state_dict"
  | TorchSave _ => "torch.save"
  | TorchLoad _ => "torch.load"
  | DatasetOpen _ _ _ => "datasets.FashionMNIST"
  | NewDataLoader _ => "DataLoader"
  | DatasetItem _ => "Dataset.__getitem__"
  | LoaderIter => "iter"
  | IterNext _ => "next"
  | Randint _ => "torch.randint"
  end.


(** The entry points behind a list of recorded calls. *)
Definition names (l : list (bool * call)) : list string :=
  map (fun e => call_name (snd e)) l.










(** The device the notebooks select on a machine. *)
Definition selected_device (w : world) : device :=
  if 0 <? length (gpus w) then cuda 0 else cpu.

(** All parameters of a module are on [d]. *)
Definition on_device (d : device) (m : SimpleNet) : Prop :=
  map pdev (parameters m) = [d; d; d; d].

(** A forward pass whose input and parameters are all on [d]; a loss whose
    operands are both on [d]. *)
Definition consistent (d : device) (e : bool * call) : Prop :=
  match snd e with
  | ModuleCall _ _ pdevs x => dev x = d /\ pdevs = [d; d; d; d]
  | NllLoss _ odev tdev => odev = d /\ tdev = d
  | _ => True
  end.

(** [device] is bound to [d], [model] to the module [r], and the parameters
    of that module are on [d]. *)
Definition device_inv (r : nat) (d : device)
  : gmap string pyval -> gmap nat object -> bool -> Prop :=
  fun g h _ =>
    g !! "model" = Some (VRef r) /\
    g !! "device" = Some (VDevice d) /\
    forall m, h !! r = Some (OModule m) -> on_device d m.

Definition device_bound (d : device)
  : gmap string pyval -> gmap nat object -> bool -> Prop :=
  fun g _ _ => g !! "device" = Some (VDevice d).

(** The parameters of the module at [r], if there is one. *)
Definition params_at (r : nat) (h : gmap nat object) : option (list Param) :=
  match h !! r with
  | Some (OModule m) => Some (parameters m)
  | _ => None
  end.

(** The same without the devices: the values and the gradients. *)
Definition weights_at (r : nat) (h : gmap nat object)
  : option (list (tensor * option tensor)) :=
  match h !! r with
  | Some (OModule m) => Some (map (fun p => (value p, grad p)) (parameters m))
  | _ => None
  end.

Definition params_inv (r : nat) (ps : option (list Param))
  : gmap string pyval -> gmap nat object -> bool -> Prop :=
  fun _ h _ => params_at r h = ps.

Definition weights_inv (r : nat) (ws : option (list (tensor * option tensor)))
  : gmap string pyval -> gmap nat object -> bool -> Prop :=
  fun _ h _ => weights_at r h = ws.

(** The parameters of [r] are [ps] and those of [model] are on [d]. *)
Definition placed_inv (r model : nat) (d : device) (ps : option (list Param))
  : gmap string pyval -> gmap nat object -> bool -> Prop :=
  fun _ h _ =>
    params_at r h = ps /\
    forall m, h !! model = Some (OModule m) -> on_device d m.

Definition any_call (e : bool * call) : Prop := True.

(** The reading of "evaluation leaves every parameter unchanged" in which a
    parameter is its value, its gradient and the device it is on. *)
Definition evaluation_keeps_parameters : Prop :=
  forall (model : nat) (x y : Tensor) (device : device)
         (loader : list (tensor * Z) * nat) (w : world),
    params_at model (heap (snd (test model device loader w)))
      = params_at model (heap w) /\
    params_at model (heap (snd (get_probs model x y device w)))
      = params_at model (heap w).

(** ** The directory shared by the two notebooks *)

(** Two directories agree on the paths [P]. *)
Definition agree (P : list string) (fs1 fs2 : gmap string file) : Prop :=
  forall p, p ∈ P -> fs1 !! p = fs2 !! p.

(** [m] reads the directory at the paths [P] only: in a directory that
    agrees on them it gives the same result and the same state, up to the
    rest of the directory. *)
Definition reads_only {A} (P : list string) (m : M A) : Prop :=
  forall w fs,
    agree P fs (files w) ->
    fst (m (set_files fs w)) = fst (m w) /\
    exists fs',
      snd (m (set_files fs w)) = set_files fs' (snd (m w)) /\
      agree P fs' (files (snd (m w))).




(** ** Further predicates on runs of the notebooks *)

(** The batch a loader makes of the samples [c]. *)
Definition batch_of (c : list (tensor * Z)) : Tensor * Tensor :=
  let '(x, y) := collate c in (mkTensor x cpu None, mkTensor y cpu None).

(** Gradients are recorded, or not, as [b] says. *)
Definition grad_mode_inv (b : bool)
  : gmap string pyval -> gmap nat object -> bool -> Prop :=
  fun _ _ b' => b' = b.

(** The global namespace is [g]. *)
Definition globals_inv (g : gmap string pyval)
  : gmap string pyval -> gmap nat object -> bool -> Prop :=
  fun g' _ _ => g' = g.

(** [trainset] is bound to the dataset [ds]. *)
Definition trainset_inv (ds : list (tensor * Z))
  : gmap string pyval -> gmap nat object -> bool -> Prop :=
  fun g _ _ => g !! "trainset" = Some (VDataset ds).

(** A random index is drawn below [n], and an item is taken at an index
    below [n]. *)
Definition index_in_range (n : nat) (e : bool * call) : Prop :=
  match snd e with
  | Randint high => high = n
  | DatasetItem i => i < n
  | _ => True
  end.

(** An item is taken from a dataset. *)
Definition item_taken (e : bool * call) : option unit :=
  match snd e with
  | DatasetItem _ => Some tt
  | _ => None
  end.



(** The parameters of the module at [r], if there is one, are on [d]. *)
Definition on_device_inv (r : nat) (d : device)
  : gmap string pyval -> gmap nat object -> bool -> Prop :=
  fun _ h _ => forall m, h !! r = Some (OModule m) -> on_device d m.

End Notebooks.

(** * A small instance of the framework interface

    Tensors are integers; a negative tensor stands for one whose shape
    [view] rejects.  The instance is used to run the notebooks. *)

Definition toy_view (rows : Z) (t : Z) : result Z :=
  if (t <? 0)%Z then Raise (RuntimeError "shape is invalid for input") else Ok t.

Definition toy_samples (n : nat) : list (Z * Z) :=
  map (fun i => (Z.of_nat i, Z.of_nat (i mod 10))) (seq 0 n).

Definition toy : Torch := {|
  tensor := Z;
  pyfloat := Z;
  blob := list (string * (Z * device));
  opt_state := nat;
  IntTensor_data := fun l => foldr Z.add 0%Z l;
  Linear_init := fun i o s => (Z.of_nat (i + s), Z.of_nat o);
  view_rows := toy_view;
  view_2d := fun _ _ t => Ok t;
  view_as_data := fun t _ => Ok t;
  squeeze_data := fun t => t;
  squeeze_dim_data := fun _ t => t;
  linear_data := fun w b x => Ok (w * x + b)%Z;
  relu_data := fun t => Z.max 0 t;
  softmax_data := fun _ t => Ok t;
  nll_loss_data := fun _ o t => Ok (o - t)%Z;
  argmax_dim_data := fun _ _ t => Ok (t mod 10)%Z;
  argmax_data := fun t => (t mod 10)%Z;
  eq_data := fun a b => Ok (if decide (a = b) then 1 else 0)%Z;
  sum_data := fun t => t;
  index_data := fun t i => Ok (t + i)%Z;
  index_int_data := fun t i => Ok (t + i)%Z;
  item_float := fun t => Ok t;
  item_int := fun t => Ok t;
  tensor_shape := fun _ => [];
  add_data := Z.add;
  zeros_like := fun _ => 0%Z;
  grad_nll := fun ps x _ t => map (fun p => (p - t)%Z) ps;
  adadelta_init := 0;
  adadelta_step := fun _ st ps =>
    (S st, map (fun vg => (fst vg - default 0 (snd vg))%Z) ps);
  pickle := fun sd => sd;
  unpickle := fun b => Ok b;
  float_of_Z := fun z => z;
  float_add := Z.add;
  float_mul := Z.mul;
  float_div := fun a b =>
    if decide (b = 0%Z) then Raise ZeroDivisionError else Ok (a / b)%Z;
  FashionMNIST_samples := fun train =>
    if train then toy_samples 250 else toy_samples 120;
  collate := fun c =>
    (foldr Z.add 0 (map fst c) mod 7, foldr Z.add 0 (map snd c) mod 10)%Z;
  randint := fun s _ => s;
|}.

(** A machine with one accelerator, a network connection and an empty
    working directory, and the state of the training notebook's kernel once
    the first eleven cells have run ([model] is bound). *)
Definition toy_machine : @world toy :=
  fresh_kernel ["Tesla T4"] true ∅ 7.

Definition toy_with_model : @world toy :=
  snd (run_all (take 11 torch_use_gpu) toy_machine).

Definition toy_input : @Tensor toy := @mkTensor toy 5%Z (cuda 0) None.

Definition toy_tensor (z : Z) (d : device) : @Tensor toy :=
  @mkTensor toy z d None.


Definition toy_training : @world toy :=
  snd (run_all (take 17 torch_use_gpu) toy_machine).


Definition toy_saved : @world toy :=
  snd (run_all torch_use_gpu toy_machine).

Definition toy_test_loader : list (Z * Z) * nat := (toy_samples 120, 100).


(** The model the training notebook saves. *)
Definition toy_param : @Param toy :=
  @mkParam toy 5%Z (Some (-5)%Z) (cuda 0).

Definition toy_trained_model : @SimpleNet toy :=
  @mkSimpleNet toy (@mkLinear toy 784 784 toy_param toy_param)
    (@mkLinear toy 784 10 toy_param toy_param) false.

(** The model of the training notebook before training. *)
Definition toy_fresh_model : @SimpleNet toy :=
  @mkSimpleNet toy
    (@mkLinear toy 784 784 (@mkParam toy 791%Z None (cuda 0))
       (@mkParam toy 784%Z None (cuda 0)))
    (@mkLinear toy 784 10 (@mkParam toy 792%Z None (cuda 0))
       (@mkParam toy 10%Z None (cuda 0)))
    true.

(** A kernel of the companion notebook in the directory the training
    notebook leaves: just started, with its first three cells run, and with
    all cells but the last run. *)
Definition toy_companion : @world toy :=
  fresh_kernel ["Tesla T4"] true (files toy_saved) 11.

Definition toy_companion_ready : @world toy :=
  snd (run_all (take 3 torch_test_model) toy_companion).

Definition toy_loaded : @world toy :=
  snd (run_all (take 7 torch_test_model) toy_companion).





(** The kernel of the training notebook once the datasets are loaded
    (twelve cells have run). *)
Definition toy_with_data : @world toy :=
  snd (run_all (take 12 torch_use_gpu) toy_machine).

(** A machine without an accelerator; a companion kernel on such a machine
    in the directory the training notebook leaves, with its first three
    cells run. *)
Definition toy_cpu_machine : @world toy := fresh_kernel [] true ∅ 7.

Definition toy_cpu_companion : @world toy :=
  snd (run_all (take 3 torch_test_model)
         (fresh_kernel [] true (files toy_saved) 11)).



(** * Proofs *)

(** ** Rules of the logic *)

Section Logic.
Context {T : Torch}.

Section Rules.
Context (Inv : gmap string pyval -> gmap nat object -> bool -> Prop).
Context (L : bool * call -> Prop).

Lemma triple_ret {A} (a : A) (Q : A -> Prop) :
  Q a -> triple Inv L (ret a) Q.
Proof.
  intros HQ w HInv. simpl. split; [done|]. split.
  - exists []. by rewrite app_nil_r.
  - intros a' [= <-]. done.
Qed.

Lemma triple_raise {A} (e : exn) (Q : A -> Prop) :
  triple Inv L (raise e) Q.
Proof.
  intros w HInv. simpl. split; [done|]. split.
  - exists []. by rewrite app_nil_r.
  - intros a' [=].
Qed.

Lemma triple_lift_result {A} (r : result A) (Q : A -> Prop) :
  (forall a, r = Ok a -> Q a) -> triple Inv L (lift_result r) Q.
Proof.
  intros HQ w HInv. simpl. split; [done|]. split.
  - exists []. by rewrite app_nil_r.
  - done.
Qed.

Lemma triple_gets {A} (f : world -> A) (Q : A -> Prop) :
  (forall w, holds Inv w -> Q (f w)) ->
  triple Inv L (gets f) Q.
Proof.
  intros HQ w HInv. simpl. split; [done|]. split.
  - exists []. by rewrite app_nil_r.
  - intros a' [= <-]. auto.
Qed.

Lemma triple_bind {A B} (m : M A) (k : A -> M B) (Q : B -> Prop) :
  triple Inv L m (fun a => triple Inv L (k a) Q) ->
  triple Inv L (bind m k) Q.
Proof.
  intros Hm w HInv. unfold bind.
  destruct (Hm w HInv) as (HI1 & (l1 & Hl1 & HL1) & HQ1).
  destruct (m w) as [[a|e] w1]; simpl in *.
  - destruct (HQ1 a eq_refl w1 HI1) as (HI2 & (l2 & Hl2 & HL2) & HQ2).
    split; [done|]. split; [|done].
    exists (l1 ++ l2). rewrite Hl2, Hl1, app_assoc. split; [done|].
    by apply Forall_app.
  - split; [done|]. split; [eauto|]. intros a [=].
Qed.

Lemma triple_conseq {A} (m : M A) (Q Q' : A -> Prop) :
  triple Inv L m Q -> (forall a, Q a -> Q' a) -> triple Inv L m Q'.
Proof.
  intros Hm HQ w HInv. destruct (Hm w HInv) as (? & ? & ?). eauto.
Qed.

Lemma triple_log (c : call) (Q : unit -> Prop) :
  (forall g h b, Inv g h b -> L (b, c)) -> Q tt -> triple Inv L (log c) Q.
Proof.
  intros HL HQ w HInv. simpl. split; [done|]. split.
  - eexists. split; [done|]. constructor; eauto.
  - by intros [] _.
Qed.

Lemma triple_set_global (x : string) (v : pyval) (Q : unit -> Prop) :
  (forall g h b, Inv g h b -> Inv (<[x := v]> g) h b) -> Q tt ->
  triple Inv L (set_global x v) Q.
Proof.
  intros Hg HQ w HInv. simpl. split; [by apply Hg|]. split.
  - exists []. by rewrite app_nil_r.
  - by intros [] _.
Qed.

Lemma triple_put_file (p : string) (f : file) (Q : unit -> Prop) :
  Q tt -> triple Inv L (put_file p f) Q.
Proof.
  intros HQ w HInv. simpl. split; [done|]. split.
  - exists []. by rewrite app_nil_r.
  - by intros [] _.
Qed.

Lemma triple_next_seed (Q : unit -> Prop) :
  Q tt -> triple Inv L next_seed Q.
Proof.
  intros HQ w HInv. simpl. split; [done|]. split.
  - exists []. by rewrite app_nil_r.
  - by intros [] _.
Qed.

Lemma triple_put_object (r : nat) (o : object) (Q : unit -> Prop) :
  (forall g h b, Inv g h b -> Inv g (<[r := o]> h) b) -> Q tt ->
  triple Inv L (put_object r o) Q.
Proof.
  intros Hh HQ w HInv. simpl. split; [by apply Hh|]. split.
  - exists []. by rewrite app_nil_r.
  - by intros [] _.
Qed.

Lemma triple_for_each {A} (xs : list A) (body : A -> M unit)
    (Q : unit -> Prop) :
  (forall x, x ∈ xs -> triple Inv L (body x) (fun _ => True)) -> Q tt ->
  triple Inv L (for_each xs body) Q.
Proof.
  intros Hb HQ. induction xs as [|x xs IH]; simpl.
  - by apply triple_ret.
  - apply triple_bind. eapply triple_conseq.
    + apply Hb. by left.
    + intros _ _. apply IH. intros y Hy. apply Hb. by right.
Qed.

Lemma triple_for_fold {A B} (P : B -> Prop) (xs : list A)
    (body : B -> A -> M B) (acc : B) (Q : B -> Prop) :
  P acc ->
  (forall b x, P b -> x ∈ xs -> triple Inv L (body b x) P) ->
  (forall b, P b -> Q b) ->
  triple Inv L (for_fold xs body acc) Q.
Proof.
  intros HP Hb HQ. revert acc HP.
  induction xs as [|x xs IH]; intros acc HP; simpl.
  - apply triple_ret. auto.
  - apply triple_bind. eapply triple_conseq.
    + apply Hb; [done|]. by left.
    + intros b Pb. apply IH; [|done].
      intros b' y Pb' Hy. apply Hb; [done|]. by right.
Qed.

End Rules.

(** [with torch.no_grad()]: inside the block another invariant [Inv'] may
    hold, which knows that gradients are off. *)
Lemma triple_no_grad {A}
    (Inv Inv' : gmap string pyval -> gmap nat object -> bool -> Prop)
    (L : bool * call -> Prop) (body : M A) (Q : A -> Prop) :
  (forall g h b,
     Inv g h b -> Inv' g h false /\ L (b, NoGradEnter) /\ L (b, NoGradExit)) ->
  (forall g h b g' h' b', Inv g h b -> Inv' g' h' b' -> Inv g' h' b) ->
  triple Inv' L body Q ->
  triple Inv L (no_grad body) Q.
Proof.
  intros Hin Hout Hb w HInv. unfold no_grad.
  destruct (Hin _ _ _ HInv) as (HInv' & Le & Lx).
  set (w1 := set_grad_enabled false (snd (log NoGradEnter w))).
  destruct (Hb w1 HInv') as (HI2 & (l & Hl & HL) & HQ).
  destruct (body w1) as [r w2]; simpl in *.
  split; [by eapply Hout|]. split; [|done].
  exists ((grad_enabled w, NoGradEnter) :: l ++ [(grad_enabled w, NoGradExit)]).
  rewrite Hl. split.
  - by rewrite <- !app_assoc.
  - constructor; [done|]. apply Forall_app. split; [done|]. by constructor.
Qed.

(** *** Inversion of a run that returns *)

Lemma bind_inv {A B} (m : M A) (k : A -> M B) (w w' : world) (b : B) :
  bind m k w = (Ok b, w') ->
  exists a w1, m w = (Ok a, w1) /\ k a w1 = (Ok b, w').
Proof.
  unfold bind. destruct (m w) as [[a|e] w1]; [eauto|done].
Qed.

Lemma ret_inv {A} (a b : A) (w w' : world) :
  ret a w = (Ok b, w') -> b = a /\ w' = w.
Proof. by intros [= -> ->]. Qed.

Lemma raise_inv {A} (e : exn) (b : A) (w w' : world) :
  raise e w = (Ok b, w') -> False.
Proof. done. Qed.

Lemma lift_result_inv {A} (r : result A) (b : A) (w w' : world) :
  lift_result r w = (Ok b, w') -> r = Ok b /\ w' = w.
Proof. by intros [= -> ->]. Qed.

Lemma gets_inv {A} (f : world -> A) (b : A) (w w' : world) :
  gets f w = (Ok b, w') -> b = f w /\ w' = w.
Proof. by intros [= <- <-]. Qed.

Lemma log_inv (c : call) (u : unit) (w w' : world) :
  log c w = (Ok u, w') ->
  w' = set_calls (calls w ++ [(grad_enabled w, c)]) w.
Proof. by intros [= <-]. Qed.

Lemma set_global_inv (x : string) (v : pyval) (u : unit) (w w' : world) :
  set_global x v w = (Ok u, w') ->
  w' = set_globals (<[x := v]> (globals w)) w.
Proof. by intros [= <-]. Qed.

Lemma put_object_inv (r : nat) (o : object) (u : unit) (w w' : world) :
  put_object r o w = (Ok u, w') ->
  w' = set_heap (<[r := o]> (heap w)) w.
Proof. by intros [= <-]. Qed.

Lemma put_file_inv (p : string) (f : file) (u : unit) (w w' : world) :
  put_file p f w = (Ok u, w') ->
  w' = set_files (<[p := f]> (files w)) w.
Proof. by intros [= <-]. Qed.

Lemma next_seed_inv (u : unit) (w w' : world) :
  next_seed w = (Ok u, w') -> w' = set_seed (S (seed w)) w.
Proof. by intros [= <-]. Qed.

Lemma no_grad_inv {A} (body : M A) (a : A) (w w' : world) :
  no_grad body w = (Ok a, w') ->
  exists w2,
    body (set_grad_enabled false
            (set_calls (calls w ++ [(grad_enabled w, NoGradEnter)]) w))
      = (Ok a, w2) /\
    w' = set_calls (calls w2 ++ [(grad_enabled w, NoGradExit)])
           (set_grad_enabled (grad_enabled w) w2).
Proof.
  unfold no_grad. cbn [log snd].
  destruct (body _) as [r w2]. intros [= -> <-]. eauto.
Qed.
(** *** Updates of a module that keep the devices of its parameters *)

Lemma pdev_map_params (f : Param -> Param) (m : SimpleNet) :
  (forall p, pdev (f p) = pdev p) ->
  map pdev (parameters (map_params f m)) = map pdev (parameters m).
Proof.
  intros Hf. unfold parameters, map_params. cbn. by rewrite !Hf.
Qed.

Lemma pdev_zip_params (f : Param -> tensor -> Param) (m : SimpleNet)
    (ts : list tensor) :
  (forall p t, pdev (f p t) = pdev p) ->
  map pdev (parameters (zip_params f m ts)) = map pdev (parameters m).
Proof.
  intros Hf. unfold parameters, zip_params. cbn.
  repeat match goal with |- context [ts !! ?i] => destruct (ts !! i) end;
    by rewrite ?Hf.
Qed.

Lemma pdev_set_training (b : bool) (m : SimpleNet) :
  map pdev (parameters (set_training b m)) = map pdev (parameters m).
Proof. reflexivity. Qed.

(** Forward evaluation: the result of a sequence is that of its first
    failing step. *)
Lemma run_bind_ok {A B} (m : M A) (k : A -> M B) (w w1 : world) (a : A)
    (res : result B * world) :
  m w = (Ok a, w1) -> k a w1 = res -> bind m k w = res.
Proof. intros H <-. unfold bind. by rewrite H. Qed.

Lemma run_bind_raise {A B} (m : M A) (k : A -> M B) (w w1 : world)
    (e : exn) :
  m w = (Raise e, w1) -> bind m k w = (Raise e, w1).
Proof. intros H. unfold bind. by rewrite H. Qed.

Lemma run_no_grad {A} (body : M A) (w w2 : world) (r : result A) :
  body (set_grad_enabled false
          (set_calls (calls w ++ [(grad_enabled w, NoGradEnter)]) w))
    = (r, w2) ->
  no_grad body w =
    (r, set_calls (calls w2 ++ [(grad_enabled w, NoGradExit)])
          (set_grad_enabled (grad_enabled w) w2)).
Proof. intros H. unfold no_grad. cbn [log snd]. by rewrite H. Qed.

Lemma run_pair {A B C} (x : A * B) (k : A -> B -> M C) (w : world)
    (res : result C * world) :
  k (fst x) (snd x) w = res -> (let '(a, b) := x in k a b) w = res.
Proof. by destruct x. Qed.
End Logic.

(** ** Rules for [reads_only] *)

Section Directory.
Context {T : Torch}.
Variable P : list string.

Lemma ro_ret {A} (a : A) : reads_only P (ret a).
Proof. intros w fs H. split; [done|]. by exists fs. Qed.









Lemma ro_bind {A B} (m : M A) (k : A -> M B) :
  reads_only P m -> (forall a, reads_only P (k a)) ->
  reads_only P (bind m k).
Proof.
  intros Hm Hk w fs H. unfold bind.
  destruct (Hm w fs H) as (Hr & fs1 & Hw & H1).
  destruct (m (set_files fs w)) as [r1 w1], (m w) as [r2 w2].
  cbn [fst snd] in *. subst r1 w1. destruct r2 as [a|e].
  - apply (Hk a w2 fs1 H1).
  - split; [done|]. by exists fs1.
Qed.


Lemma ro_for_each {A} (xs : list A) (body : A -> M unit) :
  (forall x, reads_only P (body x)) -> reads_only P (for_each xs body).
Proof.
  intros Hb. induction xs as [|x xs IH]; cbn [for_each].
  - apply ro_ret.
  - apply ro_bind; [apply Hb|]. intros _. apply IH.
Qed.
End Directory.

(** *** Automation: the rules are applied along the structure of the code,
    definitions are unfolded down to the primitive state accesses. *)

Ltac head_of t :=
  lazymatch t with
  | ?f _ => head_of f
  | _ => t
  end.

Ltac triple_step_with hook :=
  lazymatch goal with
  | |- triple _ _ (bind _ _) _ => apply triple_bind
  | |- triple _ _ (ret _) _ => apply triple_ret; cbv beta
  | |- triple _ _ (raise _) _ => apply triple_raise
  | |- triple _ _ (lift_result _) _ => apply triple_lift_result; intros ? ?
  | |- triple _ _ (gets _) _ => apply triple_gets; intros ? ?; hook
  | |- triple _ _ (log _) _ => apply triple_log; [ intros ? ? ? ? | ]
  | |- triple _ _ (set_global _ _) _ =>
      apply triple_set_global; [ intros ? ? ? ? | ]
  | |- triple _ _ (put_file _ _) _ => apply triple_put_file
  | |- triple _ _ next_seed _ => apply triple_next_seed
  | |- triple _ _ (put_object _ _) _ =>
      apply triple_put_object; [ intros ? ? ? ? | ]
  | |- triple _ _ (for_each (_ :: _) _) _ => cbn [for_each]
  | |- triple _ _ (for_each [] _) _ => cbn [for_each]
  | |- triple _ _ (for_each _ _) _ =>
      apply triple_for_each; [ intros ? ? | ]
  | |- triple _ _ (for_fold _ _ _) _ =>
      apply (triple_for_fold _ _ (fun _ => True));
      [ exact Logic.I | intros ? ? ? ? | intros ? ? ]
  | |- triple ?J _ (no_grad _) _ =>
      apply (triple_no_grad J J);
      [ intros ? ? ? ? | intros ? ? ? ? ? ? ? ? | ]
  | |- triple _ _ (match decide ?P with _ => _ end) _ =>
      destruct (decide P) as [?|?]
  | |- triple _ _ (match ?x with _ => _ end) _ => destruct x eqn:?
  | |- triple _ _ ?m _ =>
      first [ progress cbv beta | let h := head_of m in unfold h ]
  end.

Ltac record_fields :=
  cbn [data dev grad_fn value grad pdev in_features out_features weight bias
       fc1 fc2 training target lr ostate fst snd].

Ltac triple_go_with hook side :=
  repeat lazymatch goal with
         | |- triple _ _ _ _ => triple_step_with hook; record_fields
         | |- _ => side
         end.

Ltac triple_go side := triple_go_with idtac side.

Ltac done_side := solve [ exact Logic.I | reflexivity | done ].

Ltac run_prims :=
  unfold bind, gets, log, ret, raise, lift_result, set_global, put_object,
    put_file, next_seed.

Ltac fields :=
  cbn [heap globals calls files seed grad_enabled gpus online set_calls
       set_heap set_globals set_files set_seed set_grad_enabled fst snd
       data dev grad_fn value grad pdev in_features out_features weight bias
       fc1 fc2 training target lr ostate] in *.

(** Symbolic execution of a hypothesis [m w = (Ok a, w')]. *)
Ltac exec_step H :=
  lazymatch type of H with
  | bind _ _ _ = (Ok _, _) =>
      let H1 := fresh "Hrun" in
      apply bind_inv in H as (? & ? & H1 & H)
  | ret _ _ = (Ok ?b, ?w') =>
      apply ret_inv in H as [? ?]; subst w'; try subst b
  | raise _ _ = (Ok _, _) => destruct (raise_inv _ _ _ _ H)
  | lift_result _ _ = (Ok _, ?w') =>
      apply lift_result_inv in H as [H ?]; subst w'
  | gets _ _ = (Ok ?b, ?w') =>
      apply gets_inv in H as [? ?]; subst w'; try subst b
  | log _ _ = (Ok _, ?w') => apply log_inv in H; subst w'
  | set_global _ _ _ = (Ok _, ?w') => apply set_global_inv in H; subst w'
  | put_object _ _ _ = (Ok _, ?w') => apply put_object_inv in H; subst w'
  | put_file _ _ _ = (Ok _, ?w') => apply put_file_inv in H; subst w'
  | next_seed _ = (Ok _, ?w') => apply next_seed_inv in H; subst w'
  | no_grad _ _ = (Ok _, ?w') =>
      let w2 := fresh "w" in
      apply no_grad_inv in H as (w2 & H & ?); subst w'
  | for_each _ _ _ = (Ok _, _) => fail
  | for_fold _ _ _ _ = (Ok _, _) => fail
  | train _ _ _ _ _ _ = (Ok _, _) => fail
  | test _ _ _ _ = (Ok _, _) => fail
  | test_first _ _ _ _ = (Ok _, _) => fail
  | (match decide ?P with _ => _ end) _ = (Ok _, _) =>
      destruct (decide P) as [?|?]; try discriminate H
  | (match ?x with _ => _ end) _ = (Ok _, _) =>
      destruct x eqn:?; try discriminate H
  | ?m _ = (Ok _, _) =>
      first [ progress cbv beta in H | let h := head_of m in unfold h in H ]
  end.

Ltac exec :=
  repeat (match goal with
          | H : _ = (Ok _, _) |- _ => exec_step H
          end; fields).

(** Two reads of the same heap cell give the same object. *)
Ltac same_reads :=
  repeat match goal with
         | H1 : ?a = ?t, H2 : ?b = ?t |- _ =>
             rewrite <- H1 in H2; simplify_eq
         end.


(** Reads of [model] and [device], and side conditions about the devices
    of the parameters of [model]. *)
Ltac device_hook :=
  idtac;
  match goal with
  | H : holds (device_inv _ _) _ |- _ =>
      let Hm := fresh "Hm" in
      let Hd := fresh "Hd" in
      let Hh := fresh "Hh" in
      destruct H as (Hm & Hd & Hh); fields; rewrite ?Hm, ?Hd; cbv beta iota
  end.

Ltac device_side :=
  unfold consistent, device_inv, on_device, holds in *; cbn [snd];
  first
    [ exact Logic.I
    | done
    | (* set_global *)
      match goal with
      | H : _ /\ _ /\ _ |- _ /\ _ /\ _ =>
          destruct H as (? & ? & ?);
          rewrite !lookup_insert_ne by done; done
      end
    | (* put_object *)
      match goal with
      | H : _ /\ _ /\ _ |- _ /\ _ /\ _ =>
          destruct H as (? & ? & ?);
          split; [done|]; split; [done|];
          intros ?; rewrite lookup_insert;
          match goal with
          | |- context [decide (?a = ?b)] => destruct (decide (a = b))
          end;
          [ let E := fresh in
            intros E; simplify_eq;
            rewrite ?pdev_map_params, ?pdev_zip_params, ?pdev_set_training
              by done;
            eauto
          | eauto ]
      end
    | (* a forward pass *)
      split; [done|]; eauto
    ].

(** Side conditions of frame properties: writes to the heap that leave the
    parameters of a module as they were. *)
Ltac frame_side :=
  unfold params_inv, weights_inv, params_at, weights_at, any_call, holds in *;
  first
    [ exact Logic.I
    | done
    | rewrite lookup_insert;
      match goal with
      | |- context [decide (?a = ?b)] => destruct (decide (a = b)) as [->|]
      end;
      [ repeat match goal with
               | E : heap ?w !! ?r = Some _, H : context [heap ?w !! ?r] |- _ =>
                   rewrite E in H
               end;
        match goal with
        | H : _ = ?ps |- _ = ?ps => rewrite <- H; reflexivity
        end
      | assumption ] ].

(** Bring the state and the lookups in it to a normal form, using the facts
    at hand. *)
Ltac norm :=
  cbn [heap globals calls files seed grad_enabled gpus online set_calls
       set_heap set_globals set_files set_seed set_grad_enabled fst snd
       data dev grad_fn value grad pdev in_features out_features weight bias
       fc1 fc2 training target lr ostate
       length Nat.ltb Nat.leb device_ok is_cuda].

Ltac settle :=
  repeat first
    [ progress norm
    | match goal with
      | |- context [device_ok ?w' ?d] =>
          let g := eval cbn [gpus set_calls set_heap set_globals
                             set_files set_seed set_grad_enabled]
                     in (gpus w') in
          lazymatch g with
          | gpus ?w0 => progress change (device_ok w' d)
                          with (device_ok w0 d)
          end
      end
    | rewrite lookup_insert_eq
    | rewrite lookup_insert_ne by done
    | match goal with
      | H : _ = _ |- _ => rewrite H
      end ].

(** Evaluate [m w] to a result and a state. *)
Ltac run :=
  norm;
  lazymatch goal with
  | |- bind _ _ _ = _ =>
      first [ eapply run_bind_ok; [ solve [run] | run ]
            | eapply run_bind_raise; solve [run] ]
  | |- ret _ _ = _ => reflexivity
  | |- raise _ _ = _ => reflexivity
  | |- lift_result _ _ = _ => unfold lift_result; settle; reflexivity
  | |- gets _ _ = _ => reflexivity
  | |- log _ _ = _ => reflexivity
  | |- set_global _ _ _ = _ => reflexivity
  | |- put_object _ _ _ = _ => reflexivity
  | |- put_file _ _ _ = _ => reflexivity
  | |- next_seed _ = _ => reflexivity
  | |- no_grad _ _ = _ => eapply run_no_grad; run
  | |- (match decide ?P with _ => _ end) _ = _ =>
      first [ rewrite (decide_True (P := P)) by done
            | rewrite (decide_False (P := P)) by done ]; run
  | |- (match ?x with _ => _ end) _ = _ =>
      first [ progress cbv beta iota
            | eapply run_pair
            | progress settle ]; run
  | |- ?m _ = _ =>
      first [ progress cbv beta | let h := head_of m in unfold h ]; run
  end.




(** Side conditions of the invariants of the further properties. *)
Ltac inv_side :=
  unfold grad_mode_inv, globals_inv, any_call, holds in *;
  first [ exact Logic.I | done | intuition congruence ].

Ltac grad_mode_go :=
  repeat lazymatch goal with
         | |- triple (grad_mode_inv ?b) _ (no_grad _) _ =>
             apply (triple_no_grad (grad_mode_inv b) (grad_mode_inv false));
             [ intros ? ? ? ? | intros ? ? ? ? ? ? ? ? | ]
         | |- triple _ _ _ _ => triple_step_with idtac; record_fields
         | |- _ => inv_side
         end.

Ltac found :=
  repeat (rewrite lookup_insert_ne by done); apply lookup_insert_eq.

Ltac plot_side :=
  unfold trainset_inv, index_in_range, holds in *; cbn [snd];
  first
    [ exact Logic.I
    | done
    | rewrite lookup_insert_ne by done; done
    | simplify_eq; done
    | simplify_eq; apply Nat.mod_upper_bound; done ].

Ltac on_device_side :=
  unfold consistent, on_device_inv, on_device, holds in *; cbn [snd];
  first [ exact Logic.I | done | split; [done|]; eauto ].

Section Proofs.
Context {T : Torch}.

(** ** Device selection *)


Lemma use_gpu_X_train_no_device :
  triple always not_TorchDevice use_gpu_X_train (fun _ => True).
Proof. triple_go done_side. Qed.

Lemma use_gpu_data_no_device :
  triple always not_TorchDevice use_gpu_data (fun _ => True).
Proof. triple_go done_side. Qed.

Lemma train_no_device model device loader optimizer epoch :
  triple always not_TorchDevice (train model device loader optimizer epoch) (fun _ => True).
Proof. triple_go done_side. Qed.

Lemma test_no_device model device loader :
  triple always not_TorchDevice (test model device loader) (fun _ => True).
Proof. triple_go done_side. Qed.

Lemma get_probs_no_device model x y device :
  triple always not_TorchDevice (get_probs model x y device) (fun _ => True).
Proof. triple_go done_side. Qed.

Lemma use_gpu_rest_no_device :
  Forall (fun c => triple always not_TorchDevice c (fun _ => True))
    (drop 5 torch_use_gpu).
Proof.
  unfold torch_use_gpu. cbn [drop].
  repeat first [ apply List.Forall_nil | apply List.Forall_cons ];
    triple_go done_side.
Qed.

Lemma run_all_app (xs ys : list (M unit)) (w : world) :
  run_all (xs ++ ys) w =
  match run_all xs w with
  | (Ok _, w') => run_all ys w'
  | (Raise e, w') => (Raise e, w')
  end.
Proof.
  unfold run_all. revert w. induction xs as [|x xs IH]; intros w; simpl.
  - done.
  - unfold bind. destruct (x w) as [[[]|e] w1]; [apply IH|done].
Qed.

Lemma triple_run_all Inv L (cells : list (M unit)) :
  Forall (fun c => triple Inv L c (fun _ => True)) cells ->
  triple Inv L (run_all cells) (fun _ => True).
Proof.
  intros H. apply triple_for_each; [|done].
  intros c Hc. rewrite Forall_forall in H. auto.
Qed.

Lemma new_calls_app (w w' : world) (l : list (bool * call)) :
  calls w' = calls w ++ l -> new_calls w w' = l.
Proof. intros H. unfold new_calls. rewrite H. by rewrite drop_app_length. Qed.

Lemma filter_not_TorchDevice (l : list (bool * call)) :
  Forall not_TorchDevice l -> List.filter is_TorchDevice l = [].
Proof.
  induction 1 as [|e l He _ IH]; simpl; [done|].
  unfold not_TorchDevice in He. by rewrite He.
Qed.

Lemma device_cell_spec (w : world) :
  let d := if 0 <? length (gpus w) then cuda 0 else cpu in
  use_gpu_device w =
    (Ok tt,
     set_calls (calls w ++
                  [(grad_enabled w, CudaIsAvailable);
                   (grad_enabled w, TorchDevice (device_str d));
                   (grad_enabled w, Print [VDevice d])])
       (set_globals (<["device" := VDevice d]> (globals w)) w)).
Proof.
  unfold use_gpu_device, torch_cuda_is_available, torch_device, print, bind,
    log, gets, set_global, ret. simpl.
  destruct (0 <? length (gpus w)); simpl; by rewrite <- !app_assoc.
Qed.

Lemma run_eq {A} (m : M A) (w : world) (a : A) :
  fst (m w) = Ok a -> m w = (Ok a, snd (m w)).
Proof. destruct (m w) as [r w']. simpl. by intros ->. Qed.

Lemma bind_ok {A B} (m : M A) (k : A -> M B) (w w' : world) (a : A) :
  m w = (Ok a, w') -> bind m k w = k a w'.
Proof. intros H. unfold bind. by rewrite H. Qed.

Lemma use_gpu_prefix_calls (w : world) :
  exists w1 l,
    run_all (take 5 torch_use_gpu) w = (Ok tt, w1) /\
    calls w1 = calls w ++ l /\
    length (List.filter is_TorchDevice l) = 1.
Proof.
  unfold torch_use_gpu, run_all. cbn [take for_each].
  erewrite bind_ok by reflexivity.
  erewrite bind_ok by reflexivity.
  erewrite bind_ok by reflexivity.
  erewrite bind_ok by reflexivity.
  erewrite bind_ok by apply device_cell_spec.
  eexists _, _. split; [reflexivity|]. cbn [calls set_calls set_globals].
  split.
  - rewrite <- !app_assoc. reflexivity.
  - reflexivity.
Qed.

Lemma test_model_prefix_calls (w : world) :
  exists w1 l,
    run_all (take 2 torch_test_model) w = (Ok tt, w1) /\
    calls w1 = calls w ++ l /\
    length (List.filter is_TorchDevice l) = 1.
Proof.
  unfold torch_test_model, run_all. cbn [take for_each].
  erewrite bind_ok by reflexivity.
  change test_model_device with use_gpu_device.
  erewrite bind_ok by apply device_cell_spec.
  eexists _, _. split; [reflexivity|]. cbn [calls set_calls set_globals].
  split; reflexivity.
Qed.

Lemma test_model_rest_no_device :
  Forall (fun c => triple always not_TorchDevice c (fun _ => True))
    (drop 2 torch_test_model).
Proof.
  unfold torch_test_model. cbn [drop].
  repeat first [ apply List.Forall_nil | apply List.Forall_cons ];
    triple_go done_side.
Qed.

Lemma torch_device_count (n : nat) (cells : list (M unit)) (w : world) :
  (exists w1 l,
     run_all (take n cells) w = (Ok tt, w1) /\
     calls w1 = calls w ++ l /\
     length (List.filter is_TorchDevice l) = 1) ->
  Forall (fun c => triple always not_TorchDevice c (fun _ => True))
    (drop n cells) ->
  length (List.filter is_TorchDevice (new_calls w (snd (run_all cells w)))) = 1.
Proof.
  intros (w1 & l & Hrun & Hl & Hcount) Hrest.
  rewrite <- (take_drop n cells) at 1. rewrite run_all_app, Hrun.
  destruct (triple_run_all _ _ _ Hrest w1 Logic.I)
    as (_ & (l' & Hl' & HL') & _).
  rewrite (new_calls_app w _ (l ++ l')).
  - rewrite List.filter_app, (filter_not_TorchDevice l' HL'), app_nil_r. done.
  - rewrite Hl', Hl. by rewrite app_assoc.
Qed.

(** C2. In both notebooks the cell that selects the device returns, binds
    [device] to a device whose string is "cuda:0" exactly when
    [torch.cuda.is_available()] is true and "cpu" exactly when it is false;
    and in a run of either notebook [torch.device] is called exactly once. *)
Theorem device_selection (w : world) :
  let available := 0 <? length (gpus w) in
  fst (torch_cuda_is_available w) = Ok available /\
  (forall cell, cell ∈ [use_gpu_device; test_model_device] ->
     exists d,
       fst (cell w) = Ok tt /\
       globals (snd (cell w)) !! "device" = Some (VDevice d) /\
       (device_str d = "cuda:0" <-> available = true) /\
       (device_str d = "cpu" <-> available = false)) /\
  length (List.filter is_TorchDevice
            (new_calls w (snd (run_all torch_use_gpu w)))) = 1 /\
  length (List.filter is_TorchDevice
            (new_calls w (snd (run_all torch_test_model w)))) = 1.
Proof.
  intros available. split; [reflexivity|]. split; [|split].
  - intros cell Hcell.
    assert (cell = use_gpu_device) as ->.
    { apply elem_of_cons in Hcell as [->|Hcell]; [done|].
      apply elem_of_cons in Hcell as [->|Hcell]; [done|].
      by apply elem_of_nil in Hcell. }
    rewrite device_cell_spec. fold available.
    exists (if available then cuda 0 else cpu).
    split; [done|]. split; [apply lookup_insert_eq|].
    destruct available; split; split; done.
  - apply (torch_device_count 5).
    + apply use_gpu_prefix_calls.
    + apply use_gpu_rest_no_device.
  - apply (torch_device_count 2).
    + apply test_model_prefix_calls.
    + apply test_model_rest_no_device.
Qed.

(** ** The network *)


(** ** The network *)

Lemma new_calls_fields (w : world) (c l : list (bool * call)) (w' : world) :
  calls w' = calls w ++ l -> new_calls w w' = l.
Proof. apply new_calls_app. Qed.

Ltac solve_new_calls :=
  apply new_calls_app; fields; rewrite <- ?app_assoc; reflexivity.

Ltac calls_made :=
  erewrite new_calls_app
    by (fields; rewrite <- ?app_assoc; reflexivity);
  reflexivity.

Lemma SimpleNet_init_spec (w : world) :
  exists r m w',
    SimpleNet_init w = (Ok r, w') /\
    heap w' !! r = Some (OModule m) /\
    in_features (fc1 m) = 784 /\ out_features (fc1 m) = 784 /\
    in_features (fc2 m) = 784 /\ out_features (fc2 m) = 10 /\
    training m = true /\
    map pdev (parameters m) = [cpu; cpu; cpu; cpu] /\
    new_calls w w' = [(grad_enabled w, ModuleNew)] /\
    (forall r', r' <> r -> heap w' !! r' = heap w !! r') /\
    heap w !! r = None /\
    globals w' = globals w /\ files w' = files w /\ gpus w' = gpus w /\
    grad_enabled w' = grad_enabled w.
Proof.
  unfold SimpleNet_init, nn_Linear, alloc. run_prims. fields.
  destruct (Linear_init 784 784 (seed w)) as [w1 b1]. fields.
  destruct (Linear_init 784 10 (S (seed w))) as [w2 b2]. fields.
  eexists _, _, _. split; [reflexivity|]. fields.
  split; [apply lookup_insert_eq|].
  repeat (split; [reflexivity|]).
  split; [solve_new_calls|].
  split; [intros r' Hr'; by apply lookup_insert_ne|].
  split; [|done].
  apply not_elem_of_dom, is_fresh.
Qed.

Lemma forward_spec (self : nat) (x out : Tensor) (w w' : world) :
  forward self x w = (Ok out, w') ->
  exists batch_size m x1 x2 x4,
    globals w !! "batch_size" = Some (VInt batch_size) /\
    heap w !! self = Some (OModule m) /\
    view_rows batch_size (data x) = Ok x1 /\
    linear_data (value (weight (fc1 m))) (value (bias (fc1 m))) x1 = Ok x2 /\
    linear_data (value (weight (fc2 m))) (value (bias (fc2 m)))
      (relu_data x2) = Ok x4 /\
    softmax_data 1 x4 = Ok (data out) /\
    dev out = dev x /\
    Forall (fun p => pdev p = dev x) (parameters m) /\
    new_calls w w' =
      map (pair (grad_enabled w))
        [OpView (Z.to_nat batch_size);
         OpLinear (in_features (fc1 m)) (out_features (fc1 m));
         OpRelu;
         OpLinear (in_features (fc2 m)) (out_features (fc2 m));
         OpSoftmax 1] /\
    heap w' = heap w /\ globals w' = globals w /\ files w' = files w /\
    grad_enabled w' = grad_enabled w.
Proof.
  intros H. exec. same_reads.
  eexists _, _, _, _, _.
  repeat (split; [first [eassumption | done]|]).
  split; [|split; [solve_new_calls|done]].
  unfold parameters.
  repeat first [ apply List.Forall_nil | apply List.Forall_cons ];
    cbv beta; tauto.
Qed.

Lemma forward_runs (self : nat) (x : Tensor) (w : world)
    (batch_size : Z) (m : SimpleNet) (x1 x2 x4 o : tensor) :
  globals w !! "batch_size" = Some (VInt batch_size) ->
  heap w !! self = Some (OModule m) ->
  Forall (fun p => pdev p = dev x) (parameters m) ->
  view_rows batch_size (data x) = Ok x1 ->
  linear_data (value (weight (fc1 m))) (value (bias (fc1 m))) x1 = Ok x2 ->
  linear_data (value (weight (fc2 m))) (value (bias (fc2 m)))
    (relu_data x2) = Ok x4 ->
  softmax_data 1 x4 = Ok o ->
  exists w', forward self x w = (Ok (mkTensor o (dev x) None), w').
Proof.
  intros Hbs Hm Hdev Hv H1 H2 Hs.
  unfold parameters in Hdev.
  apply Forall_cons in Hdev as [D1 Hdev]. apply Forall_cons in Hdev as [D2 Hdev].
  apply Forall_cons in Hdev as [D3 Hdev]. apply Forall_cons in Hdev as [D4 _].
  unfold forward, global_int, get_global, as_int, Tensor_view, get_module,
    Linear_call, F_relu, F_softmax.
  run_prims. fields. rewrite Hbs. fields. rewrite Hv. fields. rewrite Hm. fields.
  case_decide; [|tauto]. rewrite H1. fields. rewrite Hm. fields.
  case_decide; [|tauto]. rewrite H2. fields. rewrite Hs. fields.
  eauto.
Qed.

(** C4. [SimpleNet()] builds a module with two linear layers, [fc1] from 784
    features to 784 and [fc2] from 784 to 10.  A forward pass that returns
    has computed, in this order, [x.view(batch_size, -1)], [fc1], ReLU,
    [fc2] and softmax over dimension 1, and returns the softmax output. *)
Theorem SimpleNet_architecture (w : world) (self : nat) (x out : Tensor)
    (w' : world) :
  (exists r m w1,
     SimpleNet_init w = (Ok r, w1) /\
     heap w1 !! r = Some (OModule m) /\
     in_features (fc1 m) = 784 /\ out_features (fc1 m) = 784 /\
     in_features (fc2 m) = 784 /\ out_features (fc2 m) = 10) /\
  (forward self x w = (Ok out, w') ->
   exists batch_size m x1 x2 x4,
     globals w !! "batch_size" = Some (VInt batch_size) /\
     heap w !! self = Some (OModule m) /\
     view_rows batch_size (data x) = Ok x1 /\
     linear_data (value (weight (fc1 m))) (value (bias (fc1 m))) x1 = Ok x2 /\
     linear_data (value (weight (fc2 m))) (value (bias (fc2 m)))
       (relu_data x2) = Ok x4 /\
     softmax_data 1 x4 = Ok (data out) /\
     new_calls w w' =
       map (pair (grad_enabled w))
         [OpView (Z.to_nat batch_size);
          OpLinear (in_features (fc1 m)) (out_features (fc1 m));
          OpRelu;
          OpLinear (in_features (fc2 m)) (out_features (fc2 m));
          OpSoftmax 1]).
Proof.
  split.
  - destruct (SimpleNet_init_spec w)
      as (r & m & w1 & ? & ? & ? & ? & ? & ? & _).
    eauto 10.
  - intros H.
    destruct (forward_spec _ _ _ _ _ H)
      as (bs & m & x1 & x2 & x4 & ? & ? & ? & ? & ? & ? & _ & _ & ? & _).
    eauto 12.
Qed.

(** ** Loops and the calls they record *)

Lemma observed_app {X} (g : bool * call -> option X)
    (l1 l2 : list (bool * call)) :
  observed g (l1 ++ l2) = observed g l1 ++ observed g l2.
Proof. apply omap_app. Qed.

(** A [for] loop whose iterations keep [I] and each show [step x]. *)
Lemma for_each_observed {A X} (g : bool * call -> option X)
    (I : world -> Prop) (step : A -> list X) (xs : list A)
    (body : A -> M unit) (w w' : world) :
  (forall x w1 u w2, x ∈ xs -> I w1 -> body x w1 = (Ok u, w2) ->
     I w2 /\ exists l, calls w2 = calls w1 ++ l /\ observed g l = step x) ->
  I w -> for_each xs body w = (Ok tt, w') ->
  I w' /\
  exists l, calls w' = calls w ++ l /\ observed g l = concat (map step xs).
Proof.
  intros Hbody. revert w.
  induction xs as [|x xs IH]; intros w HI Hrun; cbn [for_each] in Hrun.
  - apply ret_inv in Hrun as [_ ->]. split; [done|].
    exists []. by rewrite app_nil_r.
  - apply bind_inv in Hrun as (u & w1 & Hx & Hrun).
    destruct (Hbody x w u w1) as (HI1 & l1 & Hl1 & Ho1);
      [by left|done|done|].
    destruct (IH (fun y w2 u2 w3 Hy =>
                    Hbody y w2 u2 w3 (list_elem_of_further _ _ _ Hy))
                w1 HI1 Hrun) as (HI' & l2 & Hl2 & Ho2).
    split; [done|]. exists (l1 ++ l2).
    rewrite Hl2, Hl1, app_assoc. split; [done|].
    rewrite observed_app, Ho1, Ho2. done.
Qed.



(** ** The training step and the evaluation step *)


Lemma test_first_batch_same (model : nat) (device : device)
    (acc : pyfloat * Z) (batch : Tensor * Tensor) :
  test_first_batch model device acc batch = test_batch model device acc batch.
Proof. reflexivity. Qed.





(** ** The mode of the module during the passes *)








(** ** The training driver *)







(** ** One device for the model and its operands *)

Lemma use_gpu_rest_device (r : nat) (d : device) :
  Forall (fun c => triple (device_inv r d) (consistent d) c (fun _ => True))
    (drop 11 torch_use_gpu).
Proof.
  unfold torch_use_gpu. cbn [drop].
  repeat first [ apply List.Forall_nil | apply List.Forall_cons ].
  all: triple_go_with device_hook device_side.
Qed.

Lemma use_gpu_start_device (d : device) :
  Forall (fun c => triple always (consistent d) c (fun _ => True))
    (take 11 torch_use_gpu).
Proof.
  unfold torch_use_gpu. cbn [take].
  repeat first [ apply List.Forall_nil | apply List.Forall_cons ].
  all: triple_go ltac:(first [ done_side | exact Logic.I ]).
Qed.

Lemma use_gpu_middle_device (d : device) :
  Forall (fun c => triple (device_bound d) (consistent d) c (fun _ => True))
    (take 5 (drop 5 torch_use_gpu)).
Proof.
  unfold torch_use_gpu. cbn [take drop].
  repeat first [ apply List.Forall_nil | apply List.Forall_cons ].
  all: triple_go ltac:(first [ done_side | exact Logic.I
     | unfold device_bound in *; rewrite lookup_insert_ne by done; done ]).
Qed.

Lemma use_gpu_model_device (d : device) (w w' : world) (u : unit) :
  globals w !! "device" = Some (VDevice d) ->
  use_gpu_model w = (Ok u, w') ->
  exists r, holds (device_inv r d) w'.
Proof.
  intros Hd H. unfold use_gpu_model in H. exec. fields.
  rewrite Hd in *. simplify_eq.
  eexists. unfold holds, device_inv. fields.
  split; [apply lookup_insert_eq|].
  split; [by rewrite lookup_insert_ne|].
  intros m'. rewrite lookup_insert_eq. intros [= <-].
  unfold on_device. reflexivity.
Qed.

Lemma use_gpu_prefix_device (w w5 : world) (u : unit) :
  run_all (take 5 torch_use_gpu) w = (Ok u, w5) ->
  globals w5 !! "device" = Some (VDevice (selected_device w)).
Proof.
  unfold torch_use_gpu, run_all. cbn [take for_each].
  erewrite bind_ok by reflexivity.
  erewrite bind_ok by reflexivity.
  erewrite bind_ok by reflexivity.
  erewrite bind_ok by reflexivity.
  erewrite bind_ok by apply device_cell_spec.
  intros [= _ <-]. fields. apply lookup_insert_eq.
Qed.

Lemma use_gpu_model_bound (w w1 : world) (u : unit) :
  run_all (take 11 torch_use_gpu) w = (Ok u, w1) ->
  exists r, holds (device_inv r (selected_device w)) w1.
Proof.
  change (take 11 torch_use_gpu) with
    (take 5 torch_use_gpu ++ take 5 (drop 5 torch_use_gpu) ++ [use_gpu_model]).
  rewrite run_all_app.
  destruct (run_all (take 5 torch_use_gpu) w) as [[[]|e] w5] eqn:H5; [|done].
  apply use_gpu_prefix_device in H5.
  rewrite run_all_app.
  pose proof (triple_run_all _ _ _ (use_gpu_middle_device (selected_device w))
                w5 H5) as (H10 & _ & _).
  destruct (run_all (take 5 (drop 5 torch_use_gpu)) w5) as [[[]|e] w10];
    [|done].
  cbn [snd] in H10. unfold run_all. cbn [for_each]. intros H.
  apply bind_inv in H as (u' & w11 & H & Hret).
  apply ret_inv in Hret as [_ ->].
  by apply (use_gpu_model_device (selected_device w)) in H.
Qed.

(** C6. In a run of the training notebook, at every application of the
    model (in the loop of [train] and in the loop of [test]) the input and
    all four parameters are on the device the notebook selected, the one
    the model was moved to when it was constructed; and at every loss the
    output and the target are on that device too. *)
Theorem consistent_device (w : world) :
  Forall (consistent (selected_device w))
    (new_calls w (snd (run_all torch_use_gpu w))).
Proof.
  rewrite <- (take_drop 11 torch_use_gpu) at 1. rewrite run_all_app.
  pose proof (triple_run_all _ _ _ (use_gpu_start_device (selected_device w))
                w Logic.I) as (_ & (l1 & Hl1 & HL1) & _).
  destruct (run_all (take 11 torch_use_gpu) w) as [[[]|e] w1] eqn:H1;
    cbn [snd] in *.
  - apply use_gpu_model_bound in H1 as (r & HI).
    pose proof (triple_run_all _ _ _
                  (use_gpu_rest_device r (selected_device w)) w1 HI)
      as (_ & (l2 & Hl2 & HL2) & _).
    rewrite (new_calls_app w _ (l1 ++ l2)).
    + by apply Forall_app.
    + by rewrite Hl2, Hl1, app_assoc.
  - by rewrite (new_calls_app _ _ _ Hl1).
Qed.

(** ** Evaluation and the parameters of the model *)

Lemma test_keeps_params (model : nat) (device : device)
    (loader : list (tensor * Z) * nat) (r : nat) ps :
  triple (params_inv r ps) any_call (test model device loader) (fun _ => True).
Proof.
  unfold test. triple_go frame_side.
Qed.

Lemma get_probs_keeps_weights (model : nat) (x y : Tensor) (device : device)
    (r : nat) ws :
  triple (weights_inv r ws) any_call (get_probs model x y device)
    (fun _ => True).
Proof.
  unfold get_probs. triple_go frame_side.
Qed.

Lemma parameters_to_same (d : device) (m : SimpleNet) :
  on_device d m ->
  parameters (map_params (fun p => mkParam (value p) (grad p) d) m)
    = parameters m.
Proof.
  destruct m as [[i1 o1 [v1 g1 d1] [v2 g2 d2]] [i2 o2 [v3 g3 d3] [v4 g4 d4]] t].
  unfold on_device, parameters, map_params. cbn.
  by intros [= -> -> -> ->].
Qed.

Lemma get_probs_keeps_placed (model : nat) (x y : Tensor) (device : device)
    (r : nat) ps :
  triple (placed_inv r model device ps) any_call (get_probs model x y device)
    (fun _ => True).
Proof.
  unfold get_probs, Module_to.
  triple_go ltac:(first [ exact Logic.I | done ]).
  unfold placed_inv, params_at, holds in *.
  destruct H as [Hps Hon]. destruct H1 as [Hps1 Hon1].
  specialize (Hon _ Heqo).
  split.
  - rewrite lookup_insert. destruct (decide (model = r)) as [->|]; [|done].
    rewrite Heqo in Hps. rewrite <- Hps.
    by rewrite parameters_to_same.
  - intros m'. rewrite lookup_insert_eq. intros [= <-].
    unfold on_device in *. done.
Qed.

Lemma get_probs_places (model : nat) (x y : Tensor) (device : device)
    (w w' : world) (out : Tensor * Tensor) :
  get_probs model x y device w = (Ok out, w') ->
  exists m, heap w' !! model = Some (OModule m) /\ on_device device m.
Proof.
  intros H. unfold get_probs in H. exec. fields.
  eexists. split; [apply lookup_insert_eq|]. reflexivity.
Qed.

(** C9, amended. [test] leaves every parameter of every module as it was:
    value, gradient and device.  [get_probs] leaves the value and the
    gradient of every parameter as they were; it moves the parameters of
    [model] to [device], so it leaves them wholly unchanged when they are
    already there, and after a call that returns they are on [device]. *)
Theorem evaluation_keeps_weights (model : nat) (x y : Tensor)
    (device : device) (loader : list (tensor * Z) * nat) (w : world)
    (r : nat) :
  params_at r (heap (snd (test model device loader w)))
    = params_at r (heap w) /\
  weights_at r (heap (snd (get_probs model x y device w)))
    = weights_at r (heap w) /\
  ((forall m, heap w !! model = Some (OModule m) -> on_device device m) ->
   params_at r (heap (snd (get_probs model x y device w)))
     = params_at r (heap w)) /\
  (forall out w',
     get_probs model x y device w = (Ok out, w') ->
     exists m, heap w' !! model = Some (OModule m) /\ on_device device m).
Proof.
  split; [|split; [|split]].
  - by destruct (test_keeps_params model device loader r
                   (params_at r (heap w)) w eq_refl) as (? & _).
  - by destruct (get_probs_keeps_weights model x y device r
                   (weights_at r (heap w)) w eq_refl) as (? & _).
  - intros Hon.
    by destruct (get_probs_keeps_placed model x y device r
                   (params_at r (heap w)) w (conj eq_refl Hon)) as ([? _] & _).
  - intros out w'. apply get_probs_places.
Qed.

(** ** The value of [get_probs]; the two definitions of [test] *)

(** C10. A call of [get_probs] that returns gives a pair: the first
    component is the squeezed output of the forward pass of [model] on [x]
    (view, fc1, ReLU, fc2, softmax), on [device] and without [grad_fn]; the
    second is the first indexed at [y]. *)
Theorem get_probs_pair (model : nat) (x y : Tensor) (device : device)
    (w w' : world) (probs gt : Tensor) :
  get_probs model x y device w = (Ok (probs, gt), w') ->
  exists m batch_size x1 x2 x4 o,
    heap w !! model = Some (OModule m) /\
    globals w !! "batch_size" = Some (VInt batch_size) /\
    view_rows batch_size (data x) = Ok x1 /\
    linear_data (value (weight (fc1 m))) (value (bias (fc1 m))) x1 = Ok x2 /\
    linear_data (value (weight (fc2 m))) (value (bias (fc2 m)))
      (relu_data x2) = Ok x4 /\
    softmax_data 1 x4 = Ok o /\
    probs = mkTensor (squeeze_data o) device None /\
    index_data (data probs) (data y) = Ok (data gt) /\
    dev gt = device /\
    fst (Tensor_getitem probs (mkTensor (data y) device (grad_fn y)) w)
      = Ok gt.
Proof.
  intros H. unfold get_probs in H. exec.
  repeat match goal with
         | H : Some _ = <[_ := _]> _ !! _ |- _ =>
             rewrite lookup_insert_eq in H
         end.
  simplify_eq. cbn [map_params fc1 fc2 weight bias value] in *.
  eexists _, _, _, _, _, _.
  split; [symmetry; eassumption|]. split; [symmetry; eassumption|].
  do 4 (split; [eassumption|]).
  split; [reflexivity|]. fields.
  split; [eassumption|]. split; [reflexivity|].
  unfold Tensor_getitem, Tensor_op2, tracked. run_prims. fields.
  rewrite decide_True by done.
  match goal with H : index_data _ _ = Ok _ |- _ => rewrite H end.
  reflexivity.
Qed.

(** C8. The second definition of [test], which replaces the first, is the
    same function: for every model, device and loader the two definitions
    are equal as computations, so every state gives the same result and the
    same final state; and the driver does the same whichever of the two the
    name [test] is bound to. *)
Theorem test_redefinition_same (model : nat) (device : device)
    (test_loader : list (tensor * Z) * nat) (w : world) :
  test_first model device test_loader = test model device test_loader /\
  test_first model device test_loader w = test model device test_loader w /\
  call_test (VFunction fn_test_first) model device test_loader w
    = call_test (VFunction fn_test) model device test_loader w.
Proof. split; [|split]; reflexivity. Qed.

(** ** Failures *)









(** ** The weights file *)


Lemma use_gpu_save_writes (w w' : world) :
  use_gpu_save w = (Ok tt, w') ->
  exists model m,
    globals w !! "model" = Some (VRef model) /\
    heap w !! model = Some (OModule m) /\
    files w' = <[weights_file := Pickled (pickle (state_dict_of m))]> (files w) /\
    heap w' = heap w /\ globals w' = globals w.
Proof.
  intros H. unfold use_gpu_save in H. exec. simplify_eq.
  by eexists _, _.
Qed.








(** * Further properties of the notebooks *)

(** ** The loaders *)

Lemma chunks_concat {A} (n fuel : nat) (l : list A) :
  0 < n -> length l <= fuel -> concat (chunks fuel n l) = l.
Proof.
  intros Hn. revert l.
  induction fuel as [|f IH]; intros l Hl; cbn [chunks].
  - destruct l; [done|]. cbn in Hl. lia.
  - destruct l as [|a l]; [done|].
    cbn [concat]. rewrite IH.
    + apply take_drop.
    + rewrite length_drop. cbn [length] in *. lia.
Qed.

Lemma chunks_lookup {A} (n fuel : nat) (l : list A) (i : nat) :
  0 < n -> length l <= fuel ->
  chunks fuel n l !! i =
    if decide (i * n < length l) then Some (take n (drop (i * n) l))
    else None.
Proof.
  intros Hn. revert l i.
  induction fuel as [|f IH]; intros l i Hl; cbn [chunks].
  - destruct l; [|cbn in Hl; lia].
    rewrite decide_False by (cbn; lia). done.
  - destruct l as [|a l].
    { rewrite decide_False by (cbn; lia). done. }
    destruct i as [|i].
    + rewrite decide_True by (cbn; lia). done.
    + cbn [lookup list_lookup]. rewrite IH.
      2:{ rewrite length_drop. cbn [length] in *. lia. }
      rewrite length_drop, drop_drop.
      replace (n + i * n) with (S i * n) by lia.
      destruct (decide (i * n < _)), (decide (S i * n < _)); try done; lia.
Qed.

Lemma chunks_count {A} (n fuel : nat) (l : list A) :
  0 < n -> length l <= fuel ->
  length (chunks fuel n l) = (length l + n - 1) / n.
Proof.
  intros Hn. revert l.
  induction fuel as [|f IH]; intros l Hl; cbn [chunks].
  - destruct l; [|cbn in Hl; lia]. cbn [length].
    symmetry. apply Nat.div_small. lia.
  - destruct l as [|a l].
    { cbn [length]. symmetry. apply Nat.div_small. lia. }
    cbn [length]. rewrite IH.
    2:{ rewrite length_drop. cbn [length] in *. lia. }
    rewrite length_drop. cbn [length].
    destruct (decide (n <= S (length l))) as [Hle|Hgt].
    + replace (S (length l) + n - 1) with ((S (length l) - n + n - 1) + 1 * n)
        by lia.
      rewrite Nat.div_add by lia. lia.
    + replace (S (length l) - n) with 0 by lia.
      rewrite (Nat.div_small (0 + n - 1)) by lia.
      apply (Nat.div_unique _ _ 1 (length l)); lia.
Qed.

(** X1. With [shuffle=False] a pass over a loader goes through the dataset in
    order, [batch_size] samples at a time. *)
Theorem loader_batches_partition (ds : list (tensor * Z)) (n : nat) :
  0 < n ->
  concat (chunks (length ds) n ds) = ds /\
  loader_batches ds n = map batch_of (chunks (length ds) n ds) /\
  length (loader_batches ds n) = (length ds + n - 1) / n /\
  forall i,
    loader_batches ds n !! i =
      if decide (i * n < length ds)
      then Some (batch_of (take n (drop (i * n) ds)))
      else None.
Proof.
  intros Hn. split; [by apply chunks_concat|]. split; [reflexivity|].
  split.
  - unfold loader_batches. rewrite length_map. by apply chunks_count.
  - intros i. unfold loader_batches. rewrite list_lookup_fmap.
    rewrite chunks_lookup by done. by destruct (decide _).
Qed.

(** ** The labels, the data cells, failures of the environment *)

(** X2. [labels_map[k]] is defined for the ten classes 0..9 and raises [KeyError]
    for every other key. *)
Theorem labels_map_keys (k : Z) (w : world) :
  ((0 <= k <= 9)%Z <-> exists s, dict_getitem labels_map k w = (Ok s, w)) /\
  (~ (0 <= k <= 9)%Z <->
   dict_getitem labels_map k w = (Raise (KeyError "label"), w)).
Proof.
  assert (Hin : (0 <= k <= 9)%Z -> exists s, labels_map !! k = Some s).
  { intros Hk.
    assert (k = 0 \/ k = 1 \/ k = 2 \/ k = 3 \/ k = 4 \/ k = 5 \/ k = 6 \/
            k = 7 \/ k = 8 \/ k = 9)%Z as Hc by lia.
    repeat destruct Hc as [->|Hc]; [..|subst k]; eexists; reflexivity. }
  assert (Hout : ~ (0 <= k <= 9)%Z -> labels_map !! k = None).
  { intros Hk. unfold labels_map. apply not_elem_of_list_to_map_1.
    cbn [fmap list_fmap fst]. intros Hel.
    repeat (apply elem_of_cons in Hel as [->|Hel]; [lia|]).
    by apply elem_of_nil in Hel. }
  unfold dict_getitem.
  destruct (decide (0 <= k <= 9)%Z) as [Hk|Hk].
  - destruct (Hin Hk) as [s Hs]. rewrite Hs. split; split; try done.
    + by exists s.
  - rewrite (Hout Hk). split; split; try done.
    + by intros [s Hs].
Qed.


(** X5. [test] on a loader over an empty dataset: no batch is evaluated, and
    the average [test_loss /= len(test_loader.dataset)] divides by zero.
    The summary is not printed, and the model is left in evaluation mode. *)
Theorem test_empty_dataset (w : world) (model : nat) (m : SimpleNet)
    (device : device) (batch_size : nat) :
  heap w !! model = Some (OModule m) ->
  float_div (float_of_Z 0) (float_of_Z 0) = Raise ZeroDivisionError ->
  exists w',
    test model device ([], batch_size) w = (Raise ZeroDivisionError, w') /\
    names (new_calls w w')
      = ["Module.eval"; "no_grad.__enter__"; "no_grad.__exit__"] /\
    heap w' !! model = Some (OModule (set_training false m)) /\
    grad_enabled w' = grad_enabled w.
Proof.
  intros Hm Hd. eexists. split.
  { unfold test. cbn [fst snd length Z.of_nat].
    change (loader_batches [] batch_size) with (@nil (Tensor * Tensor)).
    cbn [for_fold]. change (Z.of_nat 0) with 0%Z. run. }
  split; [calls_made|]. split; [fields; apply lookup_insert_eq|reflexivity].
Qed.

(** X6. Weights saved from an accelerator cannot be loaded on a machine that
    does not have it: [torch.load] is called without [map_location] and
    raises.  [model] is then bound to the fresh, untrained network, and
    [load_state_dict] is not called. *)
Theorem load_without_saved_device (w : world) (c : pyval) (d : device)
    (b : blob) (sd : list (string * (tensor * device))) :
  globals w !! "SimpleNet" = Some c ->
  globals w !! "device" = Some (VDevice d) ->
  device_ok w d = true ->
  files w !! weights_file = Some (Pickled b) ->
  unpickle b = Ok sd ->
  forallb (fun kv => device_ok w (snd (snd kv))) sd = false ->
  exists w' r m,
    test_model_load w
      = (Raise (RuntimeError
                  "Attempting to deserialize object on a CUDA device"), w') /\
    names (new_calls w w') = ["SimpleNet"; "Module.to"; "torch.load"] /\
    heap w !! r = None /\
    globals w' !! "model" = Some (VRef r) /\
    heap w' !! r = Some (OModule m) /\
    map value (parameters m)
      = [fst (Linear_init 784 784 (seed w)); snd (Linear_init 784 784 (seed w));
         fst (Linear_init 784 10 (S (seed w)));
         snd (Linear_init 784 10 (S (seed w)))].
Proof.
  intros Hc Hd Hok Hf Hu Hdev.
  eexists _, (fresh (dom (heap w))), _. split.
  - unfold test_model_load.
    do 6 (eapply run_bind_ok; [solve [run]|]; cbv beta).
    eapply run_bind_raise. unfold torch_load.
    eapply run_bind_ok; [run|]. eapply run_bind_ok; [run|]. fields.
    rewrite Hf. unfold lift_result. rewrite Hu.
    eapply run_bind_ok; [reflexivity|]. eapply run_bind_ok; [reflexivity|].
    fields.
    change (forallb _ sd)
      with (forallb (fun kv => device_ok w (snd (snd kv))) sd).
    rewrite Hdev. reflexivity.
  - split; [calls_made|].
    split; [apply not_elem_of_dom, is_fresh|].
    split; [fields; apply lookup_insert_eq|].
    split; [fields; apply lookup_insert_eq|]. reflexivity.
Qed.

(** X7. [Run All] of the training notebook needs an accelerator.  Without one
    it selects the CPU and then stops at [torch.cuda.get_device_name(0)];
    with one, the cells up to the construction of the model return and leave
    [X_train], [X_test] and the parameters of [model] on [cuda:0]. *)
Theorem run_all_needs_accelerator (w : world) :
  (gpus w = [] ->
   exists w',
     run_all torch_use_gpu w
       = (Raise (RuntimeError "CUDA device not available"), w') /\
     names (new_calls w w')
       = ["shell"; "torch.cuda.is_available"; "torch.cuda.device_count";
          "torch.cuda.is_available"; "torch.device"; "print";
          "torch.cuda.get_device_name"] /\
     globals w' = <["device" := VDevice cpu]> (globals w)) /\
  (forall g gs, gpus w = g :: gs ->
   exists w' r m,
     run_all (take 11 torch_use_gpu) w = (Ok tt, w') /\
     globals w' !! "device" = Some (VDevice (cuda 0)) /\
     globals w' !! "X_train"
       = Some (VTensor (mkTensor (IntTensor_data [0; 30; 50; 75; 70]%Z)
                          (cuda 0) None)) /\
     globals w' !! "X_test"
       = Some (VTensor (mkTensor (IntTensor_data [30; 40; 50]%Z)
                          (cuda 0) None)) /\
     globals w' !! "model" = Some (VRef r) /\
     heap w' !! r = Some (OModule m) /\
     on_device (cuda 0) m).
Proof.
  pose proof (eq_refl : parse_device "cuda:0" = Some (cuda 0)) as Hp1.
  pose proof (eq_refl : parse_device "cpu" = Some cpu) as Hp0.
  split.
  - intros Hg.
    assert (Hn : gpus w !! 0 = None) by (by rewrite Hg).
    eexists. split.
    { unfold run_all, torch_use_gpu. cbn [for_each]. run. }
    split; [calls_made|]. reflexivity.
  - intros g gs Hg.
    assert (Hn : gpus w !! 0 = Some g) by (by rewrite Hg).
    eexists _, (fresh (dom (heap w))), _. split.
    { unfold run_all, torch_use_gpu. cbn [take for_each]. run. }
    fields. repeat split; first [found | reflexivity].
Qed.

Lemma chunks_one {A} (fuel : nat) (l : list A) :
  length l <= fuel -> chunks fuel 1 l = map (fun a => [a]) l.
Proof.
  revert l. induction fuel as [|f IH]; intros l Hl; cbn [chunks].
  - destruct l; [done|]. cbn in Hl. lia.
  - destruct l as [|a l]; [done|].
    cbn [take drop map]. rewrite take_0, drop_0, IH; [done|].
    cbn [length] in Hl. lia.
Qed.

Lemma loader_batches_one (ds : list (tensor * Z)) :
  loader_batches ds 1 = map (fun s => batch_of [s]) ds.
Proof.
  unfold loader_batches. rewrite chunks_one by done.
  by rewrite <- list_fmap_compose.
Qed.

(** X4. The data cell of the companion notebook does not download: it returns
    exactly when the dataset is in [./data], whether or not there is a
    connection.  It then makes an iterator that yields the test samples one
    at a time, in order. *)
Theorem test_model_data_outcome (w : world) :
  globals w !! "batch_size" = Some (VInt 1) ->
  (files w !! "./data" = Some FashionMNISTFiles ->
   exists w' it,
     test_model_data w = (Ok tt, w') /\
     files w' = files w /\
     heap w !! it = None /\
     globals w' !! "testing_iterator" = Some (VRef it) /\
     heap w' !! it
       = Some (OIterator (map (fun s => batch_of [s])
                            (FashionMNIST_samples false)))) /\
  (files w !! "./data" <> Some FashionMNISTFiles ->
   exists w',
     test_model_data w
       = (Raise (RuntimeError
                   "Dataset not found. You can use download=True to download it"),
          w') /\
     files w' = files w /\
     names (new_calls w w') = ["datasets.FashionMNIST"]).
Proof.
  intros Hb. pose proof (eq_refl : (0 <? 1)%Z = true) as H1. split.
  - intros Hf. eexists _, (fresh (dom (heap w))). split.
    { unfold test_model_data. run. }
    split; [reflexivity|]. split; [apply not_elem_of_dom, is_fresh|].
    fields. split; [found|]. rewrite lookup_insert_eq. do 2 f_equal.
    apply loader_batches_one.
  - intros Hf. eexists. split.
    { unfold test_model_data.
      eapply run_bind_ok; [solve [run]|]. cbv beta.
      eapply run_bind_raise. unfold datasets_FashionMNIST.
      do 3 (eapply run_bind_ok; [solve [run]|]; cbv beta). fields.
      destruct (files w !! "./data") as [[]|]; try done. }
    split; [reflexivity|calls_made].
Qed.


(** ** The plot cell *)

Lemma use_gpu_plot_item_indexes (ds : list (tensor * Z)) (i : nat) :
  triple (trainset_inv ds) (index_in_range (length ds))
    (use_gpu_plot_item i) (fun _ => True).
Proof. unfold use_gpu_plot_item. triple_go plot_side. Qed.

Lemma use_gpu_plot_item_takes_one (i : nat) (w w' : world) (u : unit) :
  use_gpu_plot_item i w = (Ok u, w') ->
  exists l, calls w' = calls w ++ l /\ observed item_taken l = [tt].
Proof.
  intros H. unfold use_gpu_plot_item in H. exec.
  eexists. split; [fields; rewrite <- !app_assoc; reflexivity|].
  reflexivity.
Qed.

(** X9. The plot cell draws nine random indexes, each below [len(trainset)],
    and takes the nine items at these indexes: no index passed to
    [trainset[...]] is out of range. *)
Theorem plot_indexes_in_range (w : world) (ds : list (tensor * Z)) :
  globals w !! "trainset" = Some (VDataset ds) ->
  Forall (index_in_range (length ds)) (new_calls w (snd (use_gpu_plot w))) /\
  (forall w',
     use_gpu_plot w = (Ok tt, w') ->
     observed item_taken (new_calls w w') = replicate 9 tt).
Proof.
  intros Hds. split.
  - assert (Ht : triple (trainset_inv ds) (index_in_range (length ds))
                   use_gpu_plot (fun _ => True)).
    { unfold use_gpu_plot. triple_go plot_side. }
    destruct (Ht w) as (_ & (l & Hl & HL) & _).
    { unfold holds, trainset_inv. exact Hds. }
    by rewrite (new_calls_app _ _ _ Hl).
  - intros w' H. unfold use_gpu_plot in H.
    apply bind_inv in H as (u1 & w1 & H1 & H).
    apply bind_inv in H as (u2 & w2 & H2 & H).
    apply bind_inv in H as (u3 & w3 & H3 & H).
    apply bind_inv in H as (u4 & w4 & Hloop & H).
    unfold plt in H. apply log_inv in H.
    unfold plt in H2. apply log_inv in H2. apply set_global_inv in H1, H3.
    destruct u4.
    destruct (for_each_observed item_taken (fun _ => True) (fun _ => [tt])
                _ _ w3 w4
                (fun x wa u wb _ _ Hb =>
                   conj Logic.I (use_gpu_plot_item_takes_one x wa wb u Hb))
                Logic.I Hloop) as (_ & l & Hl & Ho).
    subst. fields. erewrite new_calls_app.
    2:{ rewrite Hl. fields. rewrite <- !app_assoc. reflexivity. }
    cbn [app]. unfold observed in *.
    change (omap item_taken (?a :: l ++ ?b)) with (omap item_taken (l ++ b)).
    rewrite omap_app, Ho. reflexivity.
Qed.

(** ** What the functions leave alone *)

Lemma cells_keep_grad_mode (b : bool) :
  Forall (fun c => triple (grad_mode_inv b) any_call c (fun _ => True))
    (torch_use_gpu ++ torch_test_model).
Proof.
  unfold torch_use_gpu, torch_test_model. cbn [app].
  repeat first [ apply List.Forall_nil | apply List.Forall_cons ].
  all: grad_mode_go.
Qed.

Lemma train_keeps_globals model device loader optimizer epoch g :
  triple (globals_inv g) any_call (train model device loader optimizer epoch)
    (fun _ => True).
Proof. triple_go inv_side. Qed.

Lemma test_keeps_globals model device loader g :
  triple (globals_inv g) any_call (test model device loader) (fun _ => True).
Proof. triple_go inv_side. Qed.

Lemma get_probs_keeps_globals model x y device g :
  triple (globals_inv g) any_call (get_probs model x y device) (fun _ => True).
Proof. triple_go inv_side. Qed.

Lemma train_keeps_grad_mode model device loader optimizer epoch b :
  triple (grad_mode_inv b) any_call (train model device loader optimizer epoch)
    (fun _ => True).
Proof. grad_mode_go. Qed.

Lemma test_keeps_grad_mode model device loader b :
  triple (grad_mode_inv b) any_call (test model device loader) (fun _ => True).
Proof. grad_mode_go. Qed.

Lemma get_probs_keeps_grad_mode model x y device b :
  triple (grad_mode_inv b) any_call (get_probs model x y device)
    (fun _ => True).
Proof. grad_mode_go. Qed.

(** X10. The [no_grad] blocks of [test] and [get_probs] are scoped: whether a
    cell or a function of the notebooks returns or raises, gradients are
    recorded afterwards exactly if they were before.  So a pass of [test]
    does not switch off the gradients of the next pass of [train]. *)
Theorem grad_mode_restored (w : world) :
  Forall (fun cell : M unit => grad_enabled (snd (cell w)) = grad_enabled w)
    (torch_use_gpu ++ torch_test_model) /\
  grad_enabled (snd (run_all torch_use_gpu w)) = grad_enabled w /\
  grad_enabled (snd (run_all torch_test_model w)) = grad_enabled w /\
  forall model device loader optimizer epoch x y,
    grad_enabled (snd (train model device loader optimizer epoch w))
      = grad_enabled w /\
    grad_enabled (snd (test model device loader w)) = grad_enabled w /\
    grad_enabled (snd (get_probs model x y device w)) = grad_enabled w.
Proof.
  pose proof (cells_keep_grad_mode (grad_enabled w)) as Hc.
  split; [|split; [|split]].
  - eapply Forall_impl; [exact Hc|]. intros c H.
    by destruct (H w eq_refl) as (? & _).
  - apply Forall_app in Hc as [Hc _].
    by destruct (triple_run_all _ _ _ Hc w eq_refl) as (? & _).
  - apply Forall_app in Hc as [_ Hc].
    by destruct (triple_run_all _ _ _ Hc w eq_refl) as (? & _).
  - intros model device loader optimizer epoch x y. split; [|split].
    + by destruct (train_keeps_grad_mode model device loader optimizer epoch
                     (grad_enabled w) w eq_refl) as (? & _).
    + by destruct (test_keeps_grad_mode model device loader
                     (grad_enabled w) w eq_refl) as (? & _).
    + by destruct (get_probs_keeps_grad_mode model x y device
                     (grad_enabled w) w eq_refl) as (? & _).
Qed.

(** X11. [train], [test] and [get_probs] work on their arguments and local
    variables only: they bind, rebind and delete no global name, whether
    they return or raise.  In particular [model = model.to(device)] in
    [get_probs] does not rebind the global [model]. *)
Theorem functions_keep_globals (w : world) model device loader optimizer
    epoch x y :
  globals (snd (train model device loader optimizer epoch w)) = globals w /\
  globals (snd (test model device loader w)) = globals w /\
  globals (snd (get_probs model x y device w)) = globals w.
Proof.
  split; [|split].
  - by destruct (train_keeps_globals model device loader optimizer epoch
                   (globals w) w eq_refl) as (? & _).
  - by destruct (test_keeps_globals model device loader
                   (globals w) w eq_refl) as (? & _).
  - by destruct (get_probs_keeps_globals model x y device
                   (globals w) w eq_refl) as (? & _).
Qed.

(** ** One training step *)



(** ** The device in [get_probs] *)

Lemma Module_to_consistent (model : nat) (d : device) :
  triple always (consistent d) (Module_to model d) (fun r => r = model).
Proof. unfold Module_to. triple_go ltac:(first [done_side | exact Logic.I]). Qed.

Lemma Module_to_places (model : nat) (d : device) (w w' : world) (r : nat) :
  Module_to model d w = (Ok r, w') ->
  holds (on_device_inv model d) w'.
Proof.
  intros H. unfold Module_to in H. exec. unfold holds, on_device_inv. fields.
  intros m'. rewrite lookup_insert_eq. by intros [= <-].
Qed.

(** X13. In [get_probs] the forward pass finds the input and all four
    parameters on [device], whatever devices the model and the input were
    on before the call. *)
Theorem get_probs_consistent_device (model : nat) (x y : Tensor)
    (d : device) (w : world) :
  Forall (consistent d) (new_calls w (snd (get_probs model x y d w))).
Proof.
  unfold get_probs.
  destruct (Module_to_consistent model d w Logic.I) as (_ & (l & Hl & HL) & Hr).
  unfold bind at 1.
  destruct (Module_to model d w) as [[r|e] w1] eqn:E; cbn [fst snd] in *.
  - rewrite (Hr r eq_refl).
    match goal with
    | |- context [?k w1] =>
        assert (Hk : triple (on_device_inv model d) (consistent d)
                       k (fun _ => True))
    end.
    { triple_go on_device_side. }
    destruct (Hk w1 (Module_to_places _ _ _ _ _ E)) as (_ & (l' & Hl' & HL') & _).
    rewrite (new_calls_app w _ (l ++ l')).
    + by apply Forall_app.
    + rewrite Hl', Hl. by rewrite app_assoc.
  - by rewrite (new_calls_app _ _ _ Hl).
Qed.

End Proofs.

(** * Runs on the small instance *)

(** The forward pass of C4 on a concrete input. *)
Lemma SimpleNet_architecture_witness :
  fst (@forward toy 0 toy_input toy_with_model)
    = Ok (toy_tensor 3753298 (cuda 0)) /\
  exists batch_size m x1 x2 x4,
    globals toy_with_model !! "batch_size" = Some (VInt batch_size) /\
    heap toy_with_model !! 0 = Some (OModule m) /\
    view_rows batch_size (data toy_input) = Ok x1 /\
    linear_data (value (weight (fc1 m))) (value (bias (fc1 m))) x1 = Ok x2 /\
    linear_data (value (weight (fc2 m))) (value (bias (fc2 m)))
      (relu_data x2) = Ok x4 /\
    softmax_data 1 x4 = Ok (data (toy_tensor 3753298 (cuda 0))) /\
    new_calls toy_with_model (snd (forward 0 toy_input toy_with_model)) =
      map (pair (grad_enabled toy_with_model))
        [OpView (Z.to_nat batch_size);
         OpLinear (in_features (fc1 m)) (out_features (fc1 m));
         OpRelu;
         OpLinear (in_features (fc2 m)) (out_features (fc2 m));
         OpSoftmax 1].
Proof.
  split.
  - vm_compute. reflexivity.
  - apply (SimpleNet_architecture toy_with_model 0 toy_input).
    apply run_eq. vm_compute. reflexivity.
Defined.



(** C9 on the companion's model: on the device it is on already,
    [get_probs] leaves the parameters as they are. *)
Lemma evaluation_keeps_weights_witness :
  params_at 0
    (heap (snd (@get_probs toy 0 toy_input (toy_tensor 3 cpu) (cuda 0)
                  toy_loaded)))
    = params_at 0 (heap toy_loaded) /\
  exists m,
    heap (snd (@get_probs toy 0 toy_input (toy_tensor 3 cpu) (cuda 0)
                 toy_loaded)) !! 0 = Some (OModule m) /\
    on_device (cuda 0) m.
Proof.
  destruct (@evaluation_keeps_weights toy 0 toy_input (toy_tensor 3 cpu)
              (cuda 0) toy_test_loader toy_loaded 0) as (_ & _ & H3 & H4).
  split.
  - apply H3. intros m Hm. unfold on_device.
    assert (E : map pdev <$> params_at 0 (heap toy_loaded)
                = Some (map pdev (parameters m))).
    { unfold params_at. rewrite Hm. reflexivity. }
    assert (E' : map pdev <$> params_at 0 (heap toy_loaded)
                 = Some [cuda 0; cuda 0; cuda 0; cuda 0]).
    { vm_compute. reflexivity. }
    rewrite E in E'. exact (f_equal (default []) E').
  - eapply H4. apply run_eq. vm_compute. reflexivity.
Defined.

(** C9 as stated fails: [get_probs] with the CPU as device moves the
    parameters of a model that is on the accelerator. *)
Lemma evaluation_moves_parameters : ~ @evaluation_keeps_parameters toy.
Proof.
  intros H.
  destruct (H 0 toy_input (toy_tensor 3 cpu) cpu toy_test_loader toy_loaded)
    as [_ H2].
  apply (f_equal (fmap (map pdev))) in H2. revert H2.
  vm_compute. discriminate.
Qed.

(** The move is visible: a forward pass on an input on the accelerator
    returns before the call and raises after it. *)
Example get_probs_move_visible :
  fst (@Module_call toy 0 toy_input toy_loaded)
    = Ok (@mkTensor toy 155%Z (cuda 0)
            (Some (@ThroughModule toy 0 [5; 5; 5; 5]%Z 5%Z))) /\
  fst (@Module_call toy 0 toy_input
         (snd (@get_probs toy 0 toy_input (toy_tensor 3 cpu) cpu toy_loaded)))
    = Raise (RuntimeError "Expected all tensors to be on the same device").
Proof. split; vm_compute; reflexivity. Qed.

(** C10 on the companion's model. *)
Lemma get_probs_pair_witness :
  fst (@get_probs toy 0 toy_input (toy_tensor 3 cpu) (cuda 0) toy_loaded)
    = Ok (toy_tensor 155 (cuda 0), toy_tensor 158 (cuda 0)) /\
  exists m batch_size x1 x2 x4 o,
    heap toy_loaded !! 0 = Some (OModule m) /\
    globals toy_loaded !! "batch_size" = Some (VInt batch_size) /\
    view_rows batch_size (data toy_input) = Ok x1 /\
    linear_data (value (weight (fc1 m))) (value (bias (fc1 m))) x1 = Ok x2 /\
    linear_data (value (weight (fc2 m))) (value (bias (fc2 m)))
      (relu_data x2) = Ok x4 /\
    softmax_data 1 x4 = Ok o /\
    toy_tensor 155 (cuda 0) = mkTensor (squeeze_data o) (cuda 0) None /\
    index_data (data (toy_tensor 155 (cuda 0))) (data (toy_tensor 3 cpu))
      = Ok (data (toy_tensor 158 (cuda 0))) /\
    dev (toy_tensor 158 (cuda 0)) = cuda 0 /\
    fst (Tensor_getitem (toy_tensor 155 (cuda 0))
           (mkTensor (data (toy_tensor 3 cpu)) (cuda 0)
              (grad_fn (toy_tensor 3 cpu))) toy_loaded)
      = Ok (toy_tensor 158 (cuda 0)).
Proof.
  split; [vm_compute; reflexivity|].
  apply (@get_probs_pair toy 0 toy_input (toy_tensor 3 cpu) (cuda 0)
           toy_loaded
           (snd (@get_probs toy 0 toy_input (toy_tensor 3 cpu) (cuda 0)
                   toy_loaded))).
  apply run_eq. vm_compute. reflexivity.
Defined.




(** ** Runs for the further properties *)

(** X1 on the training loader: 250 samples in batches of 100. *)
Lemma loader_batches_partition_witness :
  concat (chunks (length (toy_samples 250)) 100 (toy_samples 250))
    = toy_samples 250 /\
  @loader_batches toy (toy_samples 250) 100
    = map (@batch_of toy) (chunks (length (toy_samples 250)) 100 (toy_samples 250)) /\
  length (@loader_batches toy (toy_samples 250) 100)
    = (length (toy_samples 250) + 100 - 1) / 100 /\
  forall i,
    @loader_batches toy (toy_samples 250) 100 !! i =
      if decide (i * 100 < length (toy_samples 250))
      then Some (@batch_of toy (take 100 (drop (i * 100) (toy_samples 250))))
      else None.
Proof. apply (@loader_batches_partition toy (toy_samples 250) 100). lia. Defined.


(** X4 on a companion kernel in the directory the training notebook
    leaves. *)
Lemma test_model_data_outcome_witness :
  exists w' it,
    @test_model_data toy toy_companion_ready = (Ok tt, w') /\
    files w' = files toy_companion_ready /\
    heap toy_companion_ready !! it = None /\
    globals w' !! "testing_iterator" = Some (VRef it) /\
    heap w' !! it
      = Some (OIterator (map (fun s => @batch_of toy [s])
                           (@FashionMNIST_samples toy false))).
Proof.
  refine (proj1 (@test_model_data_outcome toy toy_companion_ready _) _);
    vm_compute; reflexivity.
Defined.

(** X5 on the model of the training notebook. *)
Lemma test_empty_dataset_witness :
  exists w',
    @test toy 0 (cuda 0) ([], 100) toy_training
      = (Raise ZeroDivisionError, w') /\
    names (new_calls toy_training w')
      = ["Module.eval"; "no_grad.__enter__"; "no_grad.__exit__"] /\
    heap w' !! 0 = Some (OModule (set_training false toy_fresh_model)) /\
    grad_enabled w' = grad_enabled toy_training.
Proof.
  apply (@test_empty_dataset toy toy_training 0 toy_fresh_model (cuda 0) 100);
    vm_compute; reflexivity.
Defined.

(** X6 on a machine without an accelerator and weights saved from
    [cuda:0]. *)
Lemma load_without_saved_device_witness :
  exists w' r m,
    @test_model_load toy toy_cpu_companion
      = (Raise (RuntimeError
                  "Attempting to deserialize object on a CUDA device"), w') /\
    names (new_calls toy_cpu_companion w')
      = ["SimpleNet"; "Module.to"; "torch.load"] /\
    heap toy_cpu_companion !! r = None /\
    globals w' !! "model" = Some (VRef r) /\
    heap w' !! r = Some (OModule m) /\
    map value (parameters m)
      = [fst (Linear_init 784 784 (seed toy_cpu_companion));
         snd (Linear_init 784 784 (seed toy_cpu_companion));
         fst (Linear_init 784 10 (S (seed toy_cpu_companion)));
         snd (Linear_init 784 10 (S (seed toy_cpu_companion)))].
Proof.
  apply (@load_without_saved_device toy toy_cpu_companion
           (VClass "SimpleNet") cpu
           (state_dict_of toy_trained_model)
           (state_dict_of toy_trained_model));
    vm_compute; reflexivity.
Defined.

(** X7 on a machine without an accelerator. *)
Lemma run_all_needs_accelerator_witness :
  exists w',
    @run_all toy torch_use_gpu toy_cpu_machine
      = (Raise (RuntimeError "CUDA device not available"), w') /\
    names (new_calls toy_cpu_machine w')
      = ["shell"; "torch.cuda.is_available"; "torch.cuda.device_count";
         "torch.cuda.is_available"; "torch.device"; "print";
         "torch.cuda.get_device_name"] /\
    globals w' = <["device" := VDevice cpu]> (globals toy_cpu_machine).
Proof.
  apply (proj1 (@run_all_needs_accelerator toy toy_cpu_machine)).
  reflexivity.
Defined.


(** X9 on the training set of the notebook. *)
Lemma plot_indexes_in_range_witness :
  Forall (index_in_range (length (toy_samples 250)))
    (new_calls toy_with_data (snd (@use_gpu_plot toy toy_with_data))) /\
  (forall w',
     @use_gpu_plot toy toy_with_data = (Ok tt, w') ->
     observed item_taken (new_calls toy_with_data w') = replicate 9 tt).
Proof.
  apply (@plot_indexes_in_range toy toy_with_data (toy_samples 250)).
  reflexivity.
Defined.

